(** * ai_edge_torch: the Qwen 2.5 example and the large model-conversion tests

    A shallow embedding of
    - [ai_edge_torch/generative/examples/qwen/qwen.py] (module [qwen]) and
    - [ai_edge_torch/generative/test/test_model_conversion_large.py]
      (module [test_model_conversion_large]).

    [qwen.py] builds configuration objects, mutates them in place and shares
    one normalisation config between three fields, so it is embedded over a
    Python object store ([Store]): objects are attribute dictionaries held at
    locations, variables hold references, and the functions run in a
    state-and-exception monad over the store.  Code that the two files call
    and do not contain answers through a handler, and the calls are logged.

    The tests are straight-line sequences of library calls on opaque objects
    and three small tensors; they are embedded as trees of calls that are run
    against an arbitrary environment. *)

From Stdlib Require Import ZArith PrimFloat.
From stdpp Require Import gmap strings list fin_maps.

#[local] Set Warnings "-inexact-float".
#[local] Open Scope Z_scope.

(** ** The object store *)

Module Store.

Definition loc := nat.

(** Python values as far as the two files use them.  A [float] is the
    binary64 number that the Python literal denotes. *)
Inductive val :=
| VNone
| VBool (b : bool)
| VInt (n : Z)
| VFloat (f : float)
| VStr (s : string)
| VEnum (ty member : string)
| VRef (l : loc).

(** An object: its class and its attribute dictionary. *)
Record obj := Obj { cls : string; attrs : gmap string val }.

Inductive exn :=
| AttributeError
| TypeError
| ValueError
| Raised (what : string).

(** A call into code that is not part of the two files. *)
Record call := Call { fn : string; args : list val; kwargs : list (string * val) }.

(** The state: the heap and the calls made so far, oldest first. *)
Record state := State { heap : gmap loc obj; calls : list call }.

Inductive result (A : Type) :=
| Ok (a : A) (s : state)
| Err (e : exn) (s : state).
Arguments Ok {A} a s.
Arguments Err {A} e s.

Definition M (A : Type) : Type := state → result A.

#[global] Instance M_ret : MRet M := λ A a s, Ok a s.
#[global] Instance M_bind : MBind M := λ A B f m s,
  match m s with
  | Ok a s' => f a s'
  | Err e s' => Err e s'
  end.

Definition raise {A} (e : exn) : M A := λ s, Err e s.

(** Allocation takes a location that the heap does not use. *)
Definition alloc (o : obj) : M val := λ s,
  let l := fresh (dom (heap s)) in
  Ok (VRef l) (State (<[l:=o]> (heap s)) (calls s)).

(** [v.a] *)
Definition getattr (v : val) (a : string) : M val := λ s,
  match v with
  | VRef l =>
      match heap s !! l with
      | Some o =>
          match attrs o !! a with
          | Some x => Ok x s
          | None => Err AttributeError s
          end
      | None => Err AttributeError s
      end
  | _ => Err AttributeError s
  end.

(** [v.a = x] *)
Definition setattr (v : val) (a : string) (x : val) : M unit := λ s,
  match v with
  | VRef l =>
      match heap s !! l with
      | Some o => Ok tt (State (<[l:=Obj (cls o) (<[a:=x]> (attrs o))]> (heap s)) (calls s))
      | None => Err AttributeError s
      end
  | _ => Err AttributeError s
  end.

(** [copy.copy(v)] of a plain object: a new object of the same class whose
    attribute dictionary has the same entries. *)
Definition copy_copy (v : val) : M val := λ s,
  match v with
  | VRef l =>
      match heap s !! l with
      | Some o => alloc (Obj (cls o) (attrs o)) s
      | None => Err AttributeError s
      end
  | _ => Ok v s
  end.

(** Pure reads of a heap, for the statements. *)
Definition attr (h : gmap loc obj) (l : loc) (a : string) : option val :=
  o ← h !! l; attrs o !! a.

Definition class_of (h : gmap loc obj) (l : loc) : option string :=
  cls <$> h !! l.

(** [read h v [a1; ...; an]] is the value of [v.a1. ... .an] in [h]. *)
Fixpoint read (h : gmap loc obj) (v : val) (path : list string) : option val :=
  match path with
  | [] => Some v
  | a :: path' =>
      match v with
      | VRef l => x ← attr h l a; read h x path'
      | _ => None
      end
  end.

(** Two heaps hold the same attribute values except in the listed cells. *)
Definition same_except (cells : list (loc * string)) (h h' : gmap loc obj) : Prop :=
  (∀ l, class_of h' l = class_of h l) ∧
  (∀ l a, (l, a) ∉ cells → attr h' l a = attr h l a).


(** Calls into code of the repository or of its libraries that lies outside
    the two files go through a handler [ext]: it receives the call and the
    heap and answers with a value or an exception and the heap it leaves.
    Every call is appended to the log. *)
Definition handler : Type := call → gmap loc obj → (exn + val) * gmap loc obj.

Definition extcall (ext : handler) (f : string) (args : list val)
    (kwargs : list (string * val)) : M val := λ s,
  let c := Call f args kwargs in
  match ext c (heap s) with
  | (inr v, h) => Ok v (State h (calls s ++ [c]))
  | (inl e, h) => Err e (State h (calls s ++ [c]))
  end.


End Store.

(** ** qwen.py *)

Module qwen.
Import Store.

Section model_config.

(** The dataclasses of [ai_edge_torch/generative/layers/model_config.py] are
    declared outside the two files.  Their fields with a declared default are
    a parameter: [field_defaults c] holds the defaults of class [c]. *)
Variable field_defaults : string → gmap string val.

(** A dataclass constructor called with keyword arguments [kw]: the new
    object has the attributes given, and the declared default elsewhere. *)
Definition new (c : string) (kw : gmap string val) : M val :=
  alloc (Obj c (kw ∪ field_defaults c)).

Definition AttentionConfig := new "AttentionConfig".
Definition FeedForwardConfig := new "FeedForwardConfig".
Definition NormalizationConfig := new "NormalizationConfig".
Definition TransformerBlockConfig := new "TransformerBlockConfig".
Definition ModelConfig := new "ModelConfig".

(** Modelled from the spec: [ActivationConfig] of layers/model_config.py, which
    qwen.py calls with one positional argument, an [ActivationType].  The
    argument is taken to fill the field [type], the name that the sibling
    configs built in qwen.py give to the field holding their kind. *)
Definition ActivationConfig (type : val) : M val :=
  new "ActivationConfig" {[ "type" := type ]}.

(** Modelled from the spec: [ModelConfig.block_config] of
    layers/model_config.py.  qwen.py stores one [TransformerBlockConfig] in
    [block_configs] and asks for index 0 ("Qwen has only one block config"):
    the method answers with that one object, whatever the index.  A config
    whose [block_configs] is anything else is not built in qwen.py; the
    method is modelled as raising there. *)
Definition block_config (config : val) (idx : Z) : M val := λ s,
  match getattr config "block_configs" s with
  | Ok (VRef b) s' =>
      if decide (class_of (heap s') b = Some "TransformerBlockConfig")
      then Ok (VRef b) s'
      else Err ValueError s'
  | Ok _ s' => Err ValueError s'
  | Err e s' => Err e s'
  end.

(** [def get_3b_model_config(kv_cache_max_len: int = 1024)], the body. *)
Definition get_3b_model_config (kv_cache_max_len : val) : M val :=
  attn_config ← AttentionConfig {[
      "num_heads" := VInt 16;
      "head_dim" := VInt 128;
      "num_query_groups" := VInt 2;
      "rotary_base" := VInt 1000000;
      "rotary_percentage" := VFloat 1.0;
      "qkv_use_bias" := VBool true ]};
  activation ← ActivationConfig (VEnum "ActivationType" "SILU");
  ff_config ← FeedForwardConfig {[
      "type" := VEnum "FeedForwardType" "GATED";
      "activation" := activation;
      "intermediate_size" := VInt 11008 ]};
  norm_config ← NormalizationConfig {[
      "type" := VEnum "NormalizationType" "RMS_NORM";
      "epsilon" := VFloat 1e-06 ]};
  block_config ← TransformerBlockConfig {[
      "attn_config" := attn_config;
      "ff_config" := ff_config;
      "pre_attention_norm_config" := norm_config;
      "post_attention_norm_config" := norm_config ]};
  config ← ModelConfig {[
      "vocab_size" := VInt 151936;
      "num_layers" := VInt 36;
      "max_seq_len" := VInt 32768;
      "embedding_dim" := VInt 2048;
      "kv_cache_max_len" := kv_cache_max_len;
      "block_configs" := block_config;
      "final_norm_config" := norm_config;
      "enable_hlfb" := VBool true ]};
  mret config.

(** Binding the keyword arguments of a call to the signature
    [(kv_cache_max_len: int = 1024)]: a keyword other than
    [kv_cache_max_len] is a [TypeError], an absent one takes the default. *)
Definition bind_kv_cache_max_len (kwargs : gmap string val) : M val :=
  if decide (dom kwargs ⊆ ({[ "kv_cache_max_len" ]} : gset string))
  then mret (default (VInt 1024) (kwargs !! "kv_cache_max_len"))
  else raise TypeError.

(** [get_3b_model_config] called with keyword arguments [kwargs]. *)
Definition get_3b_model_config_kw (kwargs : gmap string val) : M val :=
  kv_cache_max_len ← bind_kv_cache_max_len kwargs;
  get_3b_model_config kv_cache_max_len.

(** [def get_1_5b_model_config(kv_cache_max_len: int = 1024)], the body. *)
Definition get_1_5b_model_config (kv_cache_max_len : val) : M val :=
  config ← get_3b_model_config kv_cache_max_len;
  block_config ← block_config config 0;
  attn_config ← getattr block_config "attn_config";
  setattr attn_config "num_heads" (VInt 12);;
  ff_config ← getattr block_config "ff_config";
  setattr ff_config "intermediate_size" (VInt 8960);;
  setattr config "num_layers" (VInt 28);;
  setattr config "embedding_dim" (VInt 1536);;
  mret config.

Definition get_1_5b_model_config_kw (kwargs : gmap string val) : M val :=
  kv_cache_max_len ← bind_kv_cache_max_len kwargs;
  get_1_5b_model_config kv_cache_max_len.

(** [def get_0_5b_model_config(kv_cache_max_len: int = 1024)], the body. *)
Definition get_0_5b_model_config (kv_cache_max_len : val) : M val :=
  config ← get_3b_model_config kv_cache_max_len;
  block_config ← block_config config 0;
  attn_config ← getattr block_config "attn_config";
  setattr attn_config "num_heads" (VInt 14);;
  attn_config' ← getattr block_config "attn_config";
  setattr attn_config' "head_dim" (VInt 64);;
  ff_config ← getattr block_config "ff_config";
  setattr ff_config "intermediate_size" (VInt 4864);;
  setattr config "num_layers" (VInt 24);;
  setattr config "embedding_dim" (VInt 896);;
  mret config.

Definition get_0_5b_model_config_kw (kwargs : gmap string val) : M val :=
  kv_cache_max_len ← bind_kv_cache_max_len kwargs;
  get_0_5b_model_config kv_cache_max_len.

(** [def get_fake_model_config], called with keyword arguments [kwargs]. *)
Definition get_fake_model_config (kwargs : gmap string val) : M val :=
  config ← get_3b_model_config_kw kwargs;
  setattr config "vocab_size" (VInt 128);;
  setattr config "num_layers" (VInt 2);;
  block_config ← block_config config 0;
  ff_config ← getattr block_config "ff_config";
  setattr ff_config "intermediate_size" (VInt 64);;
  mret config.

End model_config.



Section model.

(** The handler of the calls that leave qwen.py: [TinyLlama.__init__],
    [ModelLoader], [ModelLoader.load] and [nn.Module.eval]. *)
Variable ext : handler.
Variable field_defaults : string → gmap string val.

(** [Qwen.__init__(self, config)].  The assignment evaluates its right-hand
    side first, then the object whose attribute it sets.  The attribute
    [data] of a parameter is taken to hold the reference to the tensor of
    the parameter.  Not modelled: the check of torch's setter of [data] that
    the value assigned is a tensor; the statements about this function take
    as data what [tok_embedding.weight.data] holds after the superclass
    constructor, or end before the assignment. *)
Definition Qwen__init__ (self config : val) : M unit :=
  extcall ext "tiny_llama.TinyLlama.__init__" [self; config] [];;
  tok_embedding ← getattr self "tok_embedding";
  weight ← getattr tok_embedding "weight";
  data ← getattr weight "data";
  lm_head ← getattr self "lm_head";
  weight' ← getattr lm_head "weight";
  setattr weight' "data" data.

(** [Qwen(config)]: a new object of the class, then [__init__]. *)
Definition Qwen (config : val) : M val :=
  self ← alloc (Obj "Qwen" ∅);
  Qwen__init__ self config;;
  mret self.

(** The statements at module level: they bind the global [TENSOR_NAMES],
    which is the value returned. *)
Definition import_qwen (tiny_llama_TENSOR_NAMES : val) : M val :=
  TENSOR_NAMES ← copy_copy tiny_llama_TENSOR_NAMES;
  setattr TENSOR_NAMES "lm_head" VNone;;
  mret TENSOR_NAMES.

(** The global bound by [import_qwen]. *)
Variable TENSOR_NAMES : val.

Definition _build_model (checkpoint_path : val) (config : val) : M val :=
  model ← Qwen config;
  loader ← extcall ext "loading_utils.ModelLoader" [checkpoint_path; TENSOR_NAMES] [];
  extcall ext "ModelLoader.load" [loader; model] [("strict", VBool false)];;
  extcall ext "nn.Module.eval" [model] [];;
  mret model.

Definition build_3b_model (checkpoint_path : val) (kwargs : gmap string val) : M val :=
  config ← get_3b_model_config_kw field_defaults kwargs;
  _build_model checkpoint_path config.

Definition build_1_5b_model (checkpoint_path : val) (kwargs : gmap string val) : M val :=
  config ← get_1_5b_model_config_kw field_defaults kwargs;
  _build_model checkpoint_path config.

Definition build_0_5b_model (checkpoint_path : val) (kwargs : gmap string val) : M val :=
  config ← get_0_5b_model_config_kw field_defaults kwargs;
  _build_model checkpoint_path config.

End model.

Section examples.

(** An example of the environment, for the instances below.  It stands in
    for code that is not part of qwen.py and is no model of it: a
    [TinyLlama.__init__] that gives the model an embedding and a head
    projection, each with a weight that has its own tensor; a [ModelLoader]
    that keeps its two arguments; a [load] that returns; an [eval] that
    clears the [training] flag of the model. *)
Definition example_TinyLlama__init__ (args : list val) (h : gmap loc obj)
    : (exn + val) * gmap loc obj :=
  match args with
  | [VRef self; config] =>
      match h !! self with
      | Some o =>
          let t1 := fresh (dom h) in
          let h := <[t1:=Obj "Tensor" {[ "values" := VStr "embedding" ]}]> h in
          let w1 := fresh (dom h) in
          let h := <[w1:=Obj "Parameter" {[ "data" := VRef t1 ]}]> h in
          let e := fresh (dom h) in
          let h := <[e:=Obj "Embedding" {[ "weight" := VRef w1 ]}]> h in
          let t2 := fresh (dom h) in
          let h := <[t2:=Obj "Tensor" {[ "values" := VStr "head" ]}]> h in
          let w2 := fresh (dom h) in
          let h := <[w2:=Obj "Parameter" {[ "data" := VRef t2 ]}]> h in
          let l := fresh (dom h) in
          let h := <[l:=Obj "Linear" {[ "weight" := VRef w2 ]}]> h in
          (inr VNone,
           <[self:=Obj (cls o)
                     (<["config":=config]>
                        (<["training":=VBool true]>
                           (<["lm_head":=VRef l]>
                              (<["tok_embedding":=VRef e]> (attrs o)))))]> h)
      | None => (inl AttributeError, h)
      end
  | _ => (inl TypeError, h)
  end.

Definition example_ModelLoader (args : list val) (h : gmap loc obj)
    : (exn + val) * gmap loc obj :=
  match args with
  | [file_name; names] =>
      let l := fresh (dom h) in
      (inr (VRef l),
       <[l:=Obj "ModelLoader" {[ "_file_name" := file_name; "_names" := names ]}]> h)
  | _ => (inl TypeError, h)
  end.

Definition example_load (args : list val) (h : gmap loc obj)
    : (exn + val) * gmap loc obj :=
  match args with
  | [loader; model] => (inr VNone, h)
  | _ => (inl TypeError, h)
  end.

Definition example_eval (args : list val) (h : gmap loc obj)
    : (exn + val) * gmap loc obj :=
  match args with
  | [VRef self] =>
      match h !! self with
      | Some o =>
          (inr (VRef self), <[self:=Obj (cls o) (<["training":=VBool false]> (attrs o))]> h)
      | None => (inl AttributeError, h)
      end
  | _ => (inl TypeError, h)
  end.

Definition example_handler : handler := λ c h,
  if decide (fn c = "tiny_llama.TinyLlama.__init__") then example_TinyLlama__init__ (args c) h
  else if decide (fn c = "loading_utils.ModelLoader") then example_ModelLoader (args c) h
  else if decide (fn c = "ModelLoader.load") then example_load (args c) h
  else if decide (fn c = "nn.Module.eval") then example_eval (args c) h
  else (inl (Raised "NameError"), h).

End examples.

(** An example state: tiny_llama's tensor-name table at location 0, qwen's
    copy of it at location 1 and a new [Qwen] object at location 2. *)
Definition example_tensor_names : obj :=
  Obj "TensorNames"
    {[ "embedding" := VStr "model.embed_tokens"; "lm_head" := VStr "lm_head" ]}.

Definition example_state : state :=
  State {[ 0%nat := example_tensor_names;
           1%nat := Obj "TensorNames"
                      {[ "embedding" := VStr "model.embed_tokens";
                         "lm_head" := VNone ]};
           2%nat := Obj "Qwen" ∅ ]} [].

Definition example_ext : handler := example_handler.

End qwen.

(** ** test_model_conversion_large.py *)

Module test_model_conversion_large.

(** *** Tensors

    The tests build three small integer tensors and mutate one of them once,
    before any use; a tensor is modelled as a value: its shape, element type
    and device, and its elements in row-major order. *)

Inductive dtype := int64.

Record Tensor := {
  shape : list nat;
  elem_type : dtype;
  device : string;
  data : list Z
}.

Definition numel (size : list nat) : nat := foldr Nat.mul 1%nat size.

(** [np.array(rows)] for a list of rows of integers. *)
Definition np_array (rows : list (list Z)) : Tensor :=
  {| shape := [length rows; length (List.hd [] rows)];
     elem_type := int64; device := "cpu"; data := concat rows |}.

(** [torch.from_numpy(a)] *)
Definition torch_from_numpy (a : Tensor) : Tensor := a.

(** [torch.full(size, fill_value, dtype=..., device=...)] *)
Definition torch_full (size : list nat) (fill_value : Z) (ty : dtype)
    (dev : string) : Tensor :=
  {| shape := size; elem_type := ty; device := dev;
     data := replicate (numel size) fill_value |}.

(** [torch.arange(start, end)] *)
Definition torch_arange (start stop : Z) : Tensor :=
  {| shape := [Z.to_nat (stop - start)]; elem_type := int64; device := "cpu";
     data := seqZ start (stop - start) |}.

(** The shape of a value assigned into a slice, without its leading
    dimensions of size one. *)
Fixpoint strip_ones (size : list nat) : list nat :=
  match size with
  | 1%nat :: size' => strip_ones size'
  | _ => size
  end.

(** [t[row, :stop] = value] for a matrix [t].  The slice has
    [min stop columns] elements; the value must have as many once its leading
    dimensions of size one are dropped, or be a single element, which is
    then repeated.  [None] stands for the exception torch raises
    otherwise. *)
Definition setitem_row_prefix (t : Tensor) (row stop : nat) (value : Tensor)
    : option Tensor :=
  match shape t with
  | [rows; columns] =>
      let n := Nat.min stop columns in
      if decide (row < rows)%nat then
        let new :=
          if decide (strip_ones (shape value) = [n]) then Some (data value)
          else if decide (numel (shape value) = 1%nat)
               then Some (replicate n (List.hd 0 (data value)))
               else None in
        match new with
        | Some elements =>
            Some {| shape := shape t; elem_type := elem_type t;
                    device := device t;
                    data := take (row * columns) (data t) ++ elements
                            ++ drop (row * columns + n) (data t) |}
        | None => None
        end
      else None
  | _ => None
  end.

(** *** The calls of the tests *)

Inductive family := gemma | gemma2 | phi2.

Inductive exn :=
| AssertionError
| SkipTest (reason : string)
| RuntimeError
| CallRaised.

Inductive verdict := Passed | Failed | Errored | Skipped.

(** Modelled from the spec: the signature name of a conversion made with
    [ai_edge_torch.convert], which takes none; it is the default name of
    [ai_edge_torch/model.py], the name under which the tests of that
    conversion compare. *)
Definition DEFAULT_SIGNATURE_NAME : string := "serving_default".

Section tests.

(** The objects of the libraries are opaque to the tests. *)
Variables Config Model KVCache EdgeModel Converter TFLiteModel : Type.

Inductive sample :=
| STensor (t : Tensor)
| SKVCache (kv : KVCache).

(** What the interpreter builder of [setUp] will pass to
    [interpreter.InterpreterWithCustomOps] when it is run. *)
Record InterpreterBuilder := {
  custom_op_registerers : list string;
  model_content : TFLiteModel;
  experimental_default_delegate_latest_features : bool
}.

(** The calls into the libraries, indexed by the type of their answer. *)
Inductive ext : Type → Type :=
| get_fake_model_config (f : family) : ext Config
| new_model (f : family) (config : Config) : ext Model
| Module_eval (m : Model) : ext Model
| KVCache_from_model_config (config : Config) : ext KVCache
| ai_edge_torch_convert (m : Model) (sample_kwargs : list (string * sample))
    : ext EdgeModel
| ai_edge_torch_signature (name : string) (m : Model)
    (sample_kwargs : list (string * sample)) : ext Converter
| Converter_convert (c : Converter) : ext EdgeModel
| tflite_model (e : EdgeModel) : ext TFLiteModel
| set_interpreter_builder (e : EdgeModel) (b : InterpreterBuilder) : ext unit
| compare_tflite_torch (e : EdgeModel) (m : Model) (tokens input_pos : Tensor)
    (kv : KVCache) (signature_name : string) (atol rtol : float) : ext bool.

(** A test is a tree of calls: it returns, raises, or makes a call and goes
    on with the answer. *)
Inductive prog (A : Type) : Type :=
| Ret (a : A)
| Raise (e : exn)
| Vis {X : Type} (c : ext X) (k : X → prog A).
Arguments Ret {A} a.
Arguments Raise {A} e.
Arguments Vis {A X} c k.

Fixpoint bind {A B} (p : prog A) (f : A → prog B) : prog B :=
  match p with
  | Ret a => f a
  | Raise e => Raise e
  | Vis c k => Vis c (λ x, bind (k x) f)
  end.

#[local] Instance prog_ret : MRet prog := λ A a, Ret a.
#[local] Instance prog_bind : MBind prog := λ A B f p, bind p f.

Definition call {X} (c : ext X) : prog X := Vis c Ret.

Record event := Event { answer_type : Type; made : ext answer_type }.
Arguments Event {answer_type} made.

(** Running a test in an environment that answers the calls, or lets them
    raise ([None]): the calls made, in order, and the result. *)
Fixpoint run {A} (env : ∀ X, ext X → option X) (p : prog A)
    : list event * (exn + A) :=
  match p with
  | Ret a => ([], inr a)
  | Raise e => ([], inl e)
  | Vis c k =>
      match env _ c with
      | Some x => let '(t, r) := run env (k x) in (Event c :: t, r)
      | None => ([Event c], inl CallRaised)
      end
  end.

Definition verdict_of (r : exn + unit) : verdict :=
  match r with
  | inr _ => Passed
  | inl AssertionError => Failed
  | inl (SkipTest _) => Skipped
  | inl _ => Errored
  end.

(** [self.assertTrue(b)] *)
Definition assertTrue (b : bool) : prog unit :=
  if b then Ret tt else Raise AssertionError.

(** [@googletest.skipIf(condition, reason)] *)
Definition skipIf (condition : bool) (reason : string) (test : prog unit)
    : prog unit :=
  if condition then Raise (SkipTest reason) else test.

(** An exception of torch in a computation on tensors. *)
Definition torch {A} (o : option A) : prog A :=
  match o with
  | Some a => Ret a
  | None => Raise RuntimeError
  end.

(** The signature name under which a call converts, and the one under which
    a call compares. *)
Definition conversion_signature (e : event) : option string :=
  match made e with
  | ai_edge_torch_convert _ _ => Some DEFAULT_SIGNATURE_NAME
  | ai_edge_torch_signature name _ _ => Some name
  | _ => None
  end.

Definition comparison_signature (e : event) : option string :=
  match made e with
  | compare_tflite_torch _ _ _ _ _ signature_name _ _ => Some signature_name
  | _ => None
  end.

(** The model that a call puts in eval mode. *)
Definition eval_target (e : event) : option Model :=
  match made e with
  | Module_eval m => Some m
  | _ => None
  end.

(** *** class TestModelConversion *)

(** [ai_edge_config.Config.use_torch_xla], read when the class is defined. *)
Variable use_torch_xla : bool.

(** [self._interpreter_builder], as [setUp] sets it. *)
Definition _interpreter_builder (tflite_model : TFLiteModel) : InterpreterBuilder :=
  {| custom_op_registerers := ["GenAIOpsRegisterer"];
     model_content := tflite_model;
     experimental_default_delegate_latest_features := true |}.

Definition test_gemma_body : prog unit :=
  config ← call (get_fake_model_config gemma);
  model ← call (new_model gemma config);
  let idx := torch_from_numpy (np_array [[1; 2; 3; 4]]) in
  let tokens := torch_full [1; 10]%nat 0 int64 "cpu" in
  tokens ← torch (setitem_row_prefix tokens 0 4 idx);
  let input_pos := torch_arange 0 10 in
  kv ← call (KVCache_from_model_config config);
  edge_model ← call (ai_edge_torch_convert model
      [ ("tokens", STensor tokens);
        ("input_pos", STensor input_pos);
        ("kv_cache", SKVCache kv) ]);
  tflite ← call (tflite_model edge_model);
  call (set_interpreter_builder edge_model (_interpreter_builder tflite));;
  same ← call (compare_tflite_torch edge_model model tokens input_pos kv
      "serving_default" 1e-2 1e-5);
  assertTrue same.

Definition test_gemma : prog unit :=
  skipIf use_torch_xla "tests with custom ops are not supported on oss"
    test_gemma_body.

Definition test_gemma2_body : prog unit :=
  config ← call (get_fake_model_config gemma2);
  model ← call (new_model gemma2 config);
  call (Module_eval model);;
  let idx := torch_from_numpy (np_array [[1; 2; 3; 4]]) in
  let prefill_tokens := torch_full [1; 10]%nat 0 int64 "cpu" in
  prefill_tokens ← torch (setitem_row_prefix prefill_tokens 0 4 idx);
  let prefill_input_pos := torch_arange 0 10 in
  kv ← call (KVCache_from_model_config config);
  converter ← call (ai_edge_torch_signature "prefill" model
      [ ("tokens", STensor prefill_tokens);
        ("input_pos", STensor prefill_input_pos);
        ("kv_cache", SKVCache kv) ]);
  edge_model ← call (Converter_convert converter);
  tflite ← call (tflite_model edge_model);
  call (set_interpreter_builder edge_model (_interpreter_builder tflite));;
  same ← call (compare_tflite_torch edge_model model prefill_tokens
      prefill_input_pos kv "prefill" 1e-1 1e-3);
  assertTrue same.

Definition test_gemma2 : prog unit :=
  skipIf use_torch_xla "tests with custom ops are not supported on oss"
    test_gemma2_body.

Definition test_phi2_body : prog unit :=
  config ← call (get_fake_model_config phi2);
  model ← call (new_model phi2 config);
  pytorch_model ← call (Module_eval model);
  let idx := torch_from_numpy (np_array [[1; 2; 3; 4]]) in
  let tokens := torch_full [1; 10]%nat 0 int64 "cpu" in
  tokens ← torch (setitem_row_prefix tokens 0 4 idx);
  let input_pos := torch_arange 0 10 in
  kv ← call (KVCache_from_model_config config);
  edge_model ← call (ai_edge_torch_convert pytorch_model
      [ ("tokens", STensor tokens);
        ("input_pos", STensor input_pos);
        ("kv_cache", SKVCache kv) ]);
  tflite ← call (tflite_model edge_model);
  call (set_interpreter_builder edge_model (_interpreter_builder tflite));;
  same ← call (compare_tflite_torch edge_model pytorch_model tokens input_pos kv
      "serving_default" 1e-3 1e-3);
  assertTrue same.

Definition test_phi2 : prog unit :=
  skipIf use_torch_xla "tests with custom ops are not supported on oss"
    test_phi2_body.

End tests.

Arguments STensor {KVCache} t.
Arguments SKVCache {KVCache} kv.
Arguments get_fake_model_config {Config Model KVCache EdgeModel Converter TFLiteModel} f.
Arguments new_model {Config Model KVCache EdgeModel Converter TFLiteModel} f config.
Arguments Module_eval {Config Model KVCache EdgeModel Converter TFLiteModel} m.
Arguments KVCache_from_model_config
  {Config Model KVCache EdgeModel Converter TFLiteModel} config.
Arguments ai_edge_torch_convert
  {Config Model KVCache EdgeModel Converter TFLiteModel} m sample_kwargs.
Arguments ai_edge_torch_signature
  {Config Model KVCache EdgeModel Converter TFLiteModel} name m sample_kwargs.
Arguments Converter_convert
  {Config Model KVCache EdgeModel Converter TFLiteModel} c.
Arguments tflite_model {Config Model KVCache EdgeModel Converter TFLiteModel} e.
Arguments set_interpreter_builder
  {Config Model KVCache EdgeModel Converter TFLiteModel} e b.
Arguments compare_tflite_torch
  {Config Model KVCache EdgeModel Converter TFLiteModel}
  e m tokens input_pos kv signature_name atol rtol.
Arguments Event {Config Model KVCache EdgeModel Converter TFLiteModel answer_type} made.
Arguments Ret {Config Model KVCache EdgeModel Converter TFLiteModel A} a.
Arguments Raise {Config Model KVCache EdgeModel Converter TFLiteModel A} e.
Arguments Vis {Config Model KVCache EdgeModel Converter TFLiteModel A X} c k.
Arguments run {Config Model KVCache EdgeModel Converter TFLiteModel A} env p.
Arguments conversion_signature
  {Config Model KVCache EdgeModel Converter TFLiteModel} e.
Arguments comparison_signature
  {Config Model KVCache EdgeModel Converter TFLiteModel} e.
Arguments eval_target
  {Config Model KVCache EdgeModel Converter TFLiteModel} e.
Arguments test_gemma {Config Model KVCache EdgeModel Converter TFLiteModel} use_torch_xla.
Arguments test_gemma2 {Config Model KVCache EdgeModel Converter TFLiteModel} use_torch_xla.
Arguments test_phi2 {Config Model KVCache EdgeModel Converter TFLiteModel} use_torch_xla.

(** An example environment, for the instances below: configs, models and
    the other objects are numbers, every call answers, and the comparison
    answers [same]. *)
Definition example_env (same : bool) (X : Type)
    (c : ext nat nat nat nat nat nat X) : option X :=
  match c in ext _ _ _ _ _ _ X return option X with
  | get_fake_model_config f => Some 1%nat
  | new_model f config => Some (config + 1)%nat
  | Module_eval m => Some m
  | KVCache_from_model_config config => Some (config + 2)%nat
  | ai_edge_torch_convert m _ => Some (m + 10)%nat
  | ai_edge_torch_signature _ m _ => Some (m + 5)%nat
  | Converter_convert c => Some (c + 5)%nat
  | tflite_model e => Some (e + 100)%nat
  | set_interpreter_builder _ _ => Some tt
  | compare_tflite_torch _ _ _ _ _ _ _ _ => Some same
  end.

End test_model_conversion_large.

(** * Facts about the object store *)

Section store_facts.
Import Store.

Lemma alloc_fresh o s :
  ∃ l, heap s !! l = None ∧
       alloc o s = Ok (VRef l) (State (<[l:=o]> (heap s)) (calls s)).
Proof.
  exists (fresh (dom (heap s))). split; [|reflexivity].
  apply not_elem_of_dom, is_fresh.
Qed.

Lemma bind_Ok {A B} (m : M A) (f : A → M B) s a s' :
  m s = Ok a s' → (m ≫= f) s = f a s'.
Proof. unfold mbind, M_bind. by intros ->. Qed.


Lemma getattr_Ok h cs l a x :
  attr h l a = Some x → getattr (VRef l) a (State h cs) = Ok x (State h cs).
Proof.
  unfold attr, getattr. simpl. destruct (h !! l) as [o|]; [|done]. simpl.
  by intros ->.
Qed.

Lemma setattr_Ok h cs l a x o :
  h !! l = Some o →
  setattr (VRef l) a x (State h cs)
  = Ok tt (State (<[l:=Obj (cls o) (<[a:=x]> (attrs o))]> h) cs).
Proof. unfold setattr. simpl. by intros ->. Qed.


Lemma attr_insert_ne h l l' o a :
  l ≠ l' → attr (<[l:=o]> h) l' a = attr h l' a.
Proof. unfold attr. intros. by rewrite lookup_insert_ne. Qed.


Lemma same_except_trans c1 c2 h1 h2 h3 :
  same_except c1 h1 h2 → same_except c2 h2 h3 → same_except (c1 ++ c2) h1 h3.
Proof.
  intros [Hc1 Ha1] [Hc2 Ha2]. split.
  - intros l. by rewrite Hc2.
  - intros l a Hn. rewrite Ha2, Ha1; [done| |]; set_solver.
Qed.

Lemma same_except_weaken c c' h h' :
  c ⊆ c' → same_except c h h' → same_except c' h h'.
Proof. intros Hs [Hc Ha]. split; [done|]. intros l a Hn. apply Ha. set_solver. Qed.

(** Setting one attribute of an existing object changes that cell only. *)
Lemma same_except_setattr h l o a x :
  h !! l = Some o →
  same_except [(l, a)] h (<[l:=Obj (cls o) (<[a:=x]> (attrs o))]> h).
Proof.
  intros Ho. split.
  - intros l'. unfold class_of. destruct (decide (l = l')) as [<-|Hne].
    + by rewrite lookup_insert_eq, Ho.
    + by rewrite lookup_insert_ne.
  - intros l' a' Hn. unfold attr. destruct (decide (l = l')) as [<-|Hne].
    + rewrite lookup_insert_eq, Ho. simpl.
      rewrite lookup_insert_ne; [done|]. intros <-. set_solver.
    + by rewrite lookup_insert_ne.
Qed.

End store_facts.

(** * Running the monadic code on a symbolic state *)

Section run_facts.
Import Store.

Lemma run_alloc {B} o (f : val → M B) h cs :
  (alloc o ≫= f) (State h cs)
  = f (VRef (fresh (dom h))) (State (<[fresh (dom h):=o]> h) cs).
Proof. reflexivity. Qed.

Lemma fresh_None (h : gmap loc obj) : h !! fresh (dom h) = None.
Proof. apply not_elem_of_dom, is_fresh. Qed.

Lemma run_getattr {B} l a x (f : val → M B) h cs :
  attr h l a = Some x →
  (getattr (VRef l) a ≫= f) (State h cs) = f x (State h cs).
Proof. intros Ha. by rewrite (bind_Ok _ _ _ _ _ (getattr_Ok h cs l a x Ha)). Qed.

Lemma run_setattr {B} l a x o (f : unit → M B) h cs :
  h !! l = Some o →
  (setattr (VRef l) a x ≫= f) (State h cs)
  = f tt (State (<[l:=Obj (cls o) (<[a:=x]> (attrs o))]> h) cs).
Proof. intros Ho. by rewrite (bind_Ok _ _ _ _ _ (setattr_Ok h cs l a x o Ho)). Qed.

Lemma block_config_Ok l b i h cs :
  attr h l "block_configs" = Some (VRef b) →
  class_of h b = Some "TransformerBlockConfig" →
  qwen.block_config (VRef l) i (State h cs) = Ok (VRef b) (State h cs).
Proof.
  intros Ha Hc. unfold qwen.block_config.
  rewrite (getattr_Ok _ _ _ _ _ Ha). simpl. by rewrite decide_True.
Qed.

Lemma run_block_config {B} l b i (f : val → M B) h cs :
  attr h l "block_configs" = Some (VRef b) →
  class_of h b = Some "TransformerBlockConfig" →
  (qwen.block_config (VRef l) i ≫= f) (State h cs) = f (VRef b) (State h cs).
Proof.
  intros Ha Hc. by rewrite (bind_Ok _ _ _ _ _ (block_config_Ok l b i h cs Ha Hc)).
Qed.

Lemma read_cons h l a x path :
  attr h l a = Some x → read h (VRef l) (a :: path) = read h x path.
Proof. simpl. by intros ->. Qed.

Lemma same_except_start cells h : same_except cells h h.
Proof. by split. Qed.

Lemma same_except_step cells h h' l o o' a x :
  h' !! l = Some o →
  o' = Obj (cls o) (<[a:=x]> (attrs o)) →
  (l, a) ∈ cells →
  same_except cells h h' →
  same_except cells h (<[l:=o']> h').
Proof.
  intros Ho -> Hin Hs.
  eapply (same_except_weaken (cells ++ [(l, a)])).
  { intros c [Hc|Hc]%elem_of_app; [done|]. by apply list_elem_of_singleton in Hc as ->. }
  eapply same_except_trans; [exact Hs|]. by apply same_except_setattr.
Qed.

Lemma run_assoc {A B C} (m : M A) (g : A → M B) (f : B → M C) s :
  ((m ≫= g) ≫= f) s = (m ≫= λ x, g x ≫= f) s.
Proof. unfold mbind, M_bind. by destruct (m s). Qed.

Lemma run_bind_kv_cache_max_len {B} kwargs (f : val → M B) s :
  dom kwargs ⊆ ({[ "kv_cache_max_len" ]} : gset string) →
  (qwen.bind_kv_cache_max_len kwargs ≫= f) s
  = f (default (VInt 1024) (kwargs !! "kv_cache_max_len")) s.
Proof. intros Hd. unfold qwen.bind_kv_cache_max_len. by rewrite decide_True. Qed.

Lemma run_ret {A B} (a : A) (f : A → M B) s : (mret a ≫= f) s = f a s.
Proof. reflexivity. Qed.

End run_facts.

(** Splits the freshness facts [<[l:=o]> h !! l' = None] into [l ≠ l'] and
    [h !! l' = None]. *)
Ltac split_fresh :=
  repeat match goal with
  | H : <[_:=_]> _ !! _ = None |- _ =>
      apply lookup_insert_None in H; destruct H as [H ?]
  end.

(** Looks up a location in a heap built by inserts. *)
Ltac heap_lookup :=
  repeat first
    [ rewrite lookup_insert_eq
    | rewrite lookup_insert_ne by congruence ].

(** Proves [attrs !! a = Some ?x] for an attribute dictionary built from the
    keyword arguments of the source, the class defaults and later updates. *)
Ltac attrs_lookup :=
  simpl;
  repeat first
    [ rewrite lookup_insert_eq
    | rewrite lookup_insert_ne by discriminate ];
  first [ reflexivity | apply lookup_union_Some_l; reflexivity ].

Ltac solve_attr :=
  lazymatch goal with
  | |- Store.attr _ _ _ = _ =>
      unfold Store.attr; heap_lookup;
      lazymatch goal with |- Some _ ≫= _ = _ => attrs_lookup end
  end.

Ltac solve_class :=
  lazymatch goal with
  | |- Store.class_of _ _ = _ =>
      unfold Store.class_of; heap_lookup;
      lazymatch goal with |- _ <$> Some _ = _ => reflexivity end
  end.

Ltac solve_read :=
  lazymatch goal with
  | |- Store.read _ _ _ = _ =>
      repeat (erewrite read_cons by solve_attr);
      lazymatch goal with |- Store.read _ _ [] = _ => reflexivity end
  end.

(** Names the location that an allocation in heap [h] takes.  The name is
    kept as a local definition while the code runs, so that two runs from the
    same state get the same names; [forget_locs] makes the names opaque. *)
Ltac name_fresh h :=
  lazymatch goal with
  | L := fresh (dom h) |- _ => change (fresh (dom h)) with L
  | _ =>
      let l := fresh "l" in
      let Hl := fresh "Hl" in
      pose proof (fresh_None h) as Hl;
      set (l := fresh (dom h)) in *;
      split_fresh
  end.

Ltac forget_locs :=
  repeat match goal with L := fresh (dom _) |- _ => clearbody L end.

(** One step of the code. *)
Ltac run_step :=
  lazymatch goal with
  | |- context [ ((?m ≫= ?g) ≫= ?f) (Store.State ?h ?cs) ] =>
      rewrite (run_assoc m g f (Store.State h cs))
  | |- context [ (qwen.bind_kv_cache_max_len ?kw ≫= ?f) ?s ] =>
      rewrite (run_bind_kv_cache_max_len kw f s) by assumption
  | |- context [ (Store.alloc ?o ≫= ?f) (Store.State ?h ?cs) ] =>
      rewrite (run_alloc o f h cs); name_fresh h
  | |- context [ (Store.getattr (Store.VRef ?l) ?a ≫= ?f) (Store.State ?h ?cs) ] =>
      erewrite (run_getattr l a _ f h cs) by solve_attr
  | |- context [ (Store.setattr (Store.VRef ?l) ?a ?x ≫= ?f) (Store.State ?h ?cs) ] =>
      erewrite (run_setattr l a x _ f h cs) by (heap_lookup; reflexivity); simpl Store.cls; simpl Store.attrs
  | |- context [ (qwen.block_config (Store.VRef ?l) ?i ≫= ?f) (Store.State ?h ?cs) ] =>
      erewrite (run_block_config l _ i f h cs) by (solve_attr || solve_class)
  | |- context [ (mret ?a ≫= ?f) ?s ] =>
      rewrite (run_ret a f s)
  end.

Ltac run := repeat run_step; forget_locs.

Ltac unfold_config :=
  unfold qwen.get_fake_model_config,
    qwen.get_0_5b_model_config_kw, qwen.get_1_5b_model_config_kw,
    qwen.get_3b_model_config_kw,
    qwen.get_0_5b_model_config, qwen.get_1_5b_model_config,
    qwen.get_3b_model_config, qwen.AttentionConfig, qwen.ActivationConfig,
    qwen.FeedForwardConfig, qwen.NormalizationConfig,
    qwen.TransformerBlockConfig, qwen.ModelConfig, qwen.new.

Ltac split_all := repeat match goal with |- _ ∧ _ => split end.

Ltac solve_block_config :=
  lazymatch goal with
  | |- qwen.block_config _ _ _ = _ =>
      apply block_config_Ok; [solve_attr | solve_class]
  end.

Ltac solve_same_except :=
  repeat (eapply same_except_step;
          [ heap_lookup; reflexivity | reflexivity | set_solver | ]);
  apply same_except_start.

Ltac solve_ret :=
  lazymatch goal with
  | |- mret _ _ = Store.Ok _ _ => reflexivity
  | |- Store.Ok _ _ = Store.Ok _ _ => reflexivity
  end.

Ltac solve_calls :=
  lazymatch goal with
  | |- Store.calls _ = _ => reflexivity
  end.

Ltac solve_setattr :=
  lazymatch goal with
  | |- Store.setattr _ _ _ _ = Store.Ok _ _ =>
      erewrite setattr_Ok by (heap_lookup; reflexivity); reflexivity
  end.

Ltac solve_store :=
  first [ solve_calls | solve_attr | solve_read | solve_class
        | solve_block_config | solve_same_except ].

(** * The model configurations of qwen.py *)

Section config_facts.
Import Store.
Variable field_defaults : string → gmap string val.

Abbreviation get_3b_model_config := (qwen.get_3b_model_config field_defaults).
Abbreviation get_3b_model_config_kw := (qwen.get_3b_model_config_kw field_defaults).
Abbreviation get_1_5b_model_config := (qwen.get_1_5b_model_config field_defaults).
Abbreviation get_0_5b_model_config := (qwen.get_0_5b_model_config field_defaults).
Abbreviation get_fake_model_config := (qwen.get_fake_model_config field_defaults).

Lemma bind_kv_cache_max_len_absent s :
  qwen.bind_kv_cache_max_len ∅ s = Ok (VInt 1024) s.
Proof.
  unfold qwen.bind_kv_cache_max_len. rewrite decide_True; [done|].
  rewrite dom_empty_L. set_solver.
Qed.

Lemma bind_kv_cache_max_len_given v s :
  qwen.bind_kv_cache_max_len {[ "kv_cache_max_len" := v ]} s = Ok v s.
Proof.
  unfold qwen.bind_kv_cache_max_len. rewrite decide_True.
  - by rewrite lookup_singleton_eq.
  - by rewrite dom_singleton_L.
Qed.

(** C2: for every integer k, get_3b_model_config(k) returns a ModelConfig
    with vocab_size=151936, num_layers=36, max_seq_len=32768,
    embedding_dim=2048, kv_cache_max_len=k, enable_hlfb=True, whose single
    transformer-block config has attention num_heads=16, head_dim=128,
    num_query_groups=2, rotary_base=1000000, rotary_percentage=1.0,
    qkv_use_bias=True, a GATED feed-forward with SILU activation and
    intermediate_size=11008, and RMS_NORM normalization with epsilon=1e-06
    for the pre-attention, post-attention and final norms; a call that omits
    the argument is the call with k=1024. *)
Theorem get_3b_model_config_fields (k : Z) (s : state) :
  get_3b_model_config_kw ∅ s = get_3b_model_config (VInt 1024) s ∧
  get_3b_model_config_kw {[ "kv_cache_max_len" := VInt k ]} s
    = get_3b_model_config (VInt k) s ∧
  ∃ c b s',
    get_3b_model_config (VInt k) s = Ok (VRef c) s' ∧
    class_of (heap s') c = Some "ModelConfig" ∧
    read (heap s') (VRef c) ["vocab_size"] = Some (VInt 151936) ∧
    read (heap s') (VRef c) ["num_layers"] = Some (VInt 36) ∧
    read (heap s') (VRef c) ["max_seq_len"] = Some (VInt 32768) ∧
    read (heap s') (VRef c) ["embedding_dim"] = Some (VInt 2048) ∧
    read (heap s') (VRef c) ["kv_cache_max_len"] = Some (VInt k) ∧
    read (heap s') (VRef c) ["enable_hlfb"] = Some (VBool true) ∧
    qwen.block_config (VRef c) 0 s' = Ok (VRef b) s' ∧
    class_of (heap s') b = Some "TransformerBlockConfig" ∧
    read (heap s') (VRef b) ["attn_config"; "num_heads"] = Some (VInt 16) ∧
    read (heap s') (VRef b) ["attn_config"; "head_dim"] = Some (VInt 128) ∧
    read (heap s') (VRef b) ["attn_config"; "num_query_groups"] = Some (VInt 2) ∧
    read (heap s') (VRef b) ["attn_config"; "rotary_base"] = Some (VInt 1000000) ∧
    read (heap s') (VRef b) ["attn_config"; "rotary_percentage"] = Some (VFloat 1.0) ∧
    read (heap s') (VRef b) ["attn_config"; "qkv_use_bias"] = Some (VBool true) ∧
    read (heap s') (VRef b) ["ff_config"; "type"]
      = Some (VEnum "FeedForwardType" "GATED") ∧
    read (heap s') (VRef b) ["ff_config"; "activation"; "type"]
      = Some (VEnum "ActivationType" "SILU") ∧
    read (heap s') (VRef b) ["ff_config"; "intermediate_size"] = Some (VInt 11008) ∧
    read (heap s') (VRef b) ["pre_attention_norm_config"; "type"]
      = Some (VEnum "NormalizationType" "RMS_NORM") ∧
    read (heap s') (VRef b) ["pre_attention_norm_config"; "epsilon"]
      = Some (VFloat 1e-06) ∧
    read (heap s') (VRef b) ["post_attention_norm_config"; "type"]
      = Some (VEnum "NormalizationType" "RMS_NORM") ∧
    read (heap s') (VRef b) ["post_attention_norm_config"; "epsilon"]
      = Some (VFloat 1e-06) ∧
    read (heap s') (VRef c) ["final_norm_config"; "type"]
      = Some (VEnum "NormalizationType" "RMS_NORM") ∧
    read (heap s') (VRef c) ["final_norm_config"; "epsilon"]
      = Some (VFloat 1e-06).
Proof.
  split; [apply bind_Ok, bind_kv_cache_max_len_absent|].
  split; [apply bind_Ok, bind_kv_cache_max_len_given|].
  destruct s as [h cs].
  unfold_config. run.
  eexists _, _, _. split; [reflexivity|]. simpl heap.
  split_all; try solve_block_config.
  all: first [solve_read | solve_class].
Qed.

(** C3: for every integer k, get_1_5b_model_config(k) is the 3B config with
    exactly four fields changed (attention num_heads=12, feed-forward
    intermediate_size=8960, num_layers=28, embedding_dim=1536) and
    get_0_5b_model_config(k) is the 3B config with exactly five fields
    changed (attention num_heads=14, head_dim=64, feed-forward
    intermediate_size=4864, num_layers=24, embedding_dim=896); every other
    field, among them vocab_size, max_seq_len, num_query_groups,
    rotary_base, qkv_use_bias, kv_cache_max_len=k and the norm epsilon,
    keeps its 3B value.  Both runs start from the same state [s], so the
    objects of the two results sit at the same locations and are compared
    cell by cell. *)
Theorem get_1_5b_0_5b_model_config_frame (k : Z) (s : state) :
  ∃ c b attn ff s3 s15 s05,
    get_3b_model_config (VInt k) s = Ok (VRef c) s3 ∧
    qwen.block_config (VRef c) 0 s3 = Ok (VRef b) s3 ∧
    read (heap s3) (VRef b) ["attn_config"] = Some (VRef attn) ∧
    read (heap s3) (VRef b) ["ff_config"] = Some (VRef ff) ∧
    attr (heap s3) attn "num_heads" = Some (VInt 16) ∧
    attr (heap s3) attn "head_dim" = Some (VInt 128) ∧
    attr (heap s3) ff "intermediate_size" = Some (VInt 11008) ∧
    attr (heap s3) c "num_layers" = Some (VInt 36) ∧
    attr (heap s3) c "embedding_dim" = Some (VInt 2048) ∧
    (* the 1.5B config *)
    get_1_5b_model_config (VInt k) s = Ok (VRef c) s15 ∧
    calls s15 = calls s3 ∧
    same_except
      [(attn, "num_heads"); (ff, "intermediate_size");
       (c, "num_layers"); (c, "embedding_dim")] (heap s3) (heap s15) ∧
    attr (heap s15) attn "num_heads" = Some (VInt 12) ∧
    attr (heap s15) ff "intermediate_size" = Some (VInt 8960) ∧
    attr (heap s15) c "num_layers" = Some (VInt 28) ∧
    attr (heap s15) c "embedding_dim" = Some (VInt 1536) ∧
    read (heap s15) (VRef c) ["vocab_size"] = Some (VInt 151936) ∧
    read (heap s15) (VRef c) ["max_seq_len"] = Some (VInt 32768) ∧
    read (heap s15) (VRef c) ["kv_cache_max_len"] = Some (VInt k) ∧
    read (heap s15) (VRef attn) ["head_dim"] = Some (VInt 128) ∧
    read (heap s15) (VRef attn) ["num_query_groups"] = Some (VInt 2) ∧
    read (heap s15) (VRef attn) ["rotary_base"] = Some (VInt 1000000) ∧
    read (heap s15) (VRef attn) ["qkv_use_bias"] = Some (VBool true) ∧
    read (heap s15) (VRef c) ["final_norm_config"; "epsilon"]
      = Some (VFloat 1e-06) ∧
    (* the 0.5B config *)
    get_0_5b_model_config (VInt k) s = Ok (VRef c) s05 ∧
    calls s05 = calls s3 ∧
    same_except
      [(attn, "num_heads"); (attn, "head_dim"); (ff, "intermediate_size");
       (c, "num_layers"); (c, "embedding_dim")] (heap s3) (heap s05) ∧
    attr (heap s05) attn "num_heads" = Some (VInt 14) ∧
    attr (heap s05) attn "head_dim" = Some (VInt 64) ∧
    attr (heap s05) ff "intermediate_size" = Some (VInt 4864) ∧
    attr (heap s05) c "num_layers" = Some (VInt 24) ∧
    attr (heap s05) c "embedding_dim" = Some (VInt 896) ∧
    read (heap s05) (VRef c) ["vocab_size"] = Some (VInt 151936) ∧
    read (heap s05) (VRef c) ["max_seq_len"] = Some (VInt 32768) ∧
    read (heap s05) (VRef c) ["kv_cache_max_len"] = Some (VInt k) ∧
    read (heap s05) (VRef attn) ["num_query_groups"] = Some (VInt 2) ∧
    read (heap s05) (VRef attn) ["rotary_base"] = Some (VInt 1000000) ∧
    read (heap s05) (VRef attn) ["qkv_use_bias"] = Some (VBool true) ∧
    read (heap s05) (VRef c) ["final_norm_config"; "epsilon"]
      = Some (VFloat 1e-06).
Proof.
  destruct s as [h cs]. unfold_config. run.
  eexists _, _, _, _, _, _, _.
  split; [reflexivity|]. simpl heap.
  split; [solve_block_config|].
  split; [solve_read|]. split; [solve_read|].
  split_all; try solve_ret.
  all: simpl heap; solve_store.
Qed.

(** C4: for every keyword-argument assignment that get_3b_model_config
    accepts (none, or kv_cache_max_len alone), get_fake_model_config is the
    3B config of the same arguments with exactly three fields changed:
    vocab_size=128, num_layers=2 and the feed-forward intermediate_size=64 of
    the block; every other field keeps its 3B value, in particular
    embedding_dim=2048, num_heads=16, head_dim=128 and max_seq_len=32768. *)
Theorem get_fake_model_config_frame (kwargs : gmap string val) (s : state) :
  dom kwargs ⊆ ({[ "kv_cache_max_len" ]} : gset string) →
  ∃ c b ff s3 sf,
    get_3b_model_config_kw kwargs s = Ok (VRef c) s3 ∧
    qwen.block_config (VRef c) 0 s3 = Ok (VRef b) s3 ∧
    read (heap s3) (VRef b) ["ff_config"] = Some (VRef ff) ∧
    attr (heap s3) c "vocab_size" = Some (VInt 151936) ∧
    attr (heap s3) c "num_layers" = Some (VInt 36) ∧
    attr (heap s3) ff "intermediate_size" = Some (VInt 11008) ∧
    get_fake_model_config kwargs s = Ok (VRef c) sf ∧
    calls sf = calls s3 ∧
    same_except
      [(c, "vocab_size"); (c, "num_layers"); (ff, "intermediate_size")]
      (heap s3) (heap sf) ∧
    attr (heap sf) c "vocab_size" = Some (VInt 128) ∧
    attr (heap sf) c "num_layers" = Some (VInt 2) ∧
    attr (heap sf) ff "intermediate_size" = Some (VInt 64) ∧
    read (heap sf) (VRef c) ["embedding_dim"] = Some (VInt 2048) ∧
    read (heap sf) (VRef c) ["max_seq_len"] = Some (VInt 32768) ∧
    read (heap sf) (VRef c) ["kv_cache_max_len"]
      = Some (default (VInt 1024) (kwargs !! "kv_cache_max_len")) ∧
    read (heap sf) (VRef b) ["attn_config"; "num_heads"] = Some (VInt 16) ∧
    read (heap sf) (VRef b) ["attn_config"; "head_dim"] = Some (VInt 128).
Proof.
  intros Hkw. destruct s as [h cs]. unfold_config. run.
  eexists _, _, _, _, _.
  split; [reflexivity|]. simpl heap.
  split; [solve_block_config|].
  split; [solve_read|].
  split_all; try solve_ret.
  all: simpl heap; solve_store.
Qed.

(** C8: in the config returned by each of the four builders, the
    pre-attention norm config, the post-attention norm config and the final
    norm config are one object: the three fields hold the same reference
    [n], and after an attribute (epsilon, say) is set through it, each of the
    three fields shows the new value. *)
Theorem norm_config_shared (k : Z) (kwargs : gmap string val) (m : M val) (s : state) :
  dom kwargs ⊆ ({[ "kv_cache_max_len" ]} : gset string) →
  m ∈ [ get_3b_model_config (VInt k); get_1_5b_model_config (VInt k);
        get_0_5b_model_config (VInt k); get_fake_model_config kwargs ] →
  ∃ c b n s',
    m s = Ok (VRef c) s' ∧
    qwen.block_config (VRef c) 0 s' = Ok (VRef b) s' ∧
    attr (heap s') c "block_configs" = Some (VRef b) ∧
    attr (heap s') b "pre_attention_norm_config" = Some (VRef n) ∧
    attr (heap s') b "post_attention_norm_config" = Some (VRef n) ∧
    attr (heap s') c "final_norm_config" = Some (VRef n) ∧
    ∀ a v, ∃ s'',
      setattr (VRef n) a v s' = Ok tt s'' ∧
      read (heap s'') (VRef b) ["pre_attention_norm_config"; a] = Some v ∧
      read (heap s'') (VRef b) ["post_attention_norm_config"; a] = Some v ∧
      read (heap s'') (VRef c) ["final_norm_config"; a] = Some v.
Proof.
  intros Hkw Hm. destruct s as [h cs].
  repeat (apply elem_of_cons in Hm as [->|Hm]); [| | | |by apply elem_of_nil in Hm].
  all: unfold_config; run; eexists _, _, _, _.
  all: split; [reflexivity|]; simpl heap.
  all: split; [solve_block_config|].
  all: split; [solve_attr|].
  all: split; [solve_attr|]; split; [solve_attr|]; split; [solve_attr|].
  all: intros a v; eexists; split; [solve_setattr|]; simpl heap.
  all: split_all; solve_read.
Qed.

End config_facts.

Section config_instances.
Import Store.

Lemma get_fake_model_config_frame_witness :
  dom ({[ "kv_cache_max_len" := VInt 512 ]} : gmap string val)
    ⊆ ({[ "kv_cache_max_len" ]} : gset string) ∧
  ∃ c s',
    qwen.get_fake_model_config (λ _, ∅) {[ "kv_cache_max_len" := VInt 512 ]}
      (State ∅ []) = Ok (VRef c) s' ∧
    attr (heap s') c "vocab_size" = Some (VInt 128) ∧
    attr (heap s') c "num_layers" = Some (VInt 2) ∧
    read (heap s') (VRef c) ["kv_cache_max_len"] = Some (VInt 512).
Proof.
  assert (H : dom ({[ "kv_cache_max_len" := VInt 512 ]} : gmap string val)
                ⊆ ({[ "kv_cache_max_len" ]} : gset string))
    by (rewrite dom_singleton_L; reflexivity).
  split; [exact H|].
  destruct (get_fake_model_config_frame (λ _, ∅) _ (State ∅ []) H)
    as (c & b & ff & s3 & sf & _ & _ & _ & _ & _ & _ & Hrun & _ & _ & Hv & Hn
        & _ & _ & _ & Hk & _).
  exists c, sf. split; [exact Hrun|]. split; [exact Hv|]. split; [exact Hn|].
  exact Hk.
Defined.

Lemma norm_config_shared_witness :
  ∃ c n s',
    qwen.get_1_5b_model_config (λ _, ∅) (VInt 512) (State ∅ []) = Ok (VRef c) s' ∧
    read (heap s') (VRef c) ["block_configs"; "pre_attention_norm_config"]
      = Some (VRef n) ∧
    read (heap s') (VRef c) ["block_configs"; "post_attention_norm_config"]
      = Some (VRef n) ∧
    read (heap s') (VRef c) ["final_norm_config"] = Some (VRef n).
Proof.
  destruct (norm_config_shared (λ _, ∅) 512 ∅
              (qwen.get_1_5b_model_config (λ _, ∅) (VInt 512)) (State ∅ []))
    as (c & b & n & s' & Hrun & _ & Hbc & Hpre & Hpost & Hfin & _).
  - rewrite dom_empty_L. apply empty_subseteq.
  - apply list_elem_of_further, list_elem_of_here.
  - exists c, n, s'. split; [exact Hrun|]. split; [|split].
    + rewrite (read_cons _ _ _ _ _ Hbc). by rewrite (read_cons _ _ _ _ _ Hpre).
    + rewrite (read_cons _ _ _ _ _ Hbc). by rewrite (read_cons _ _ _ _ _ Hpost).
    + by rewrite (read_cons _ _ _ _ _ Hfin).
Defined.

End config_instances.

(** * The Qwen class, the tensor names and the model builders of qwen.py *)

Section model_facts.
Import Store.

Lemma extcall_Ok ext f args kwargs s v h :
  ext (Call f args kwargs) (heap s) = (inr v, h) →
  extcall ext f args kwargs s = Ok v (State h (calls s ++ [Call f args kwargs])).
Proof. unfold extcall. by intros ->. Qed.

Lemma same_except_attr cells h h' l a :
  same_except cells h h' → (l, a) ∉ cells → attr h' l a = attr h l a.
Proof. intros [_ Ha]. apply Ha. Qed.

(** C9: the statements at module level of qwen.py set lm_head to None on
    qwen's own shallow copy of the tensor-name table.  The copy [q] is a new
    object of the same class whose other attributes hold the values of the
    original; the original [t], with its lm_head and every other attribute,
    and every other object of the heap are as before the import. *)
Theorem import_qwen_copies_tensor_names (t : loc) (o : obj) (s : state) :
  heap s !! t = Some o →
  ∃ q s',
    qwen.import_qwen (VRef t) s = Ok (VRef q) s' ∧
    q ≠ t ∧
    heap s !! q = None ∧
    class_of (heap s') q = Some (cls o) ∧
    attr (heap s') q "lm_head" = Some VNone ∧
    (∀ a, a ≠ "lm_head" → attr (heap s') q a = attrs o !! a) ∧
    heap s' !! t = Some o ∧
    (∀ l, l ≠ q → heap s' !! l = heap s !! l) ∧
    calls s' = calls s.
Proof.
  intros Ho. destruct s as [h cs]. simpl in Ho.
  pose proof (fresh_None h) as Hq. set (q := fresh (dom h)) in *.
  assert (Hne : q ≠ t) by congruence.
  exists q. eexists. split.
  { unfold qwen.import_qwen.
    erewrite bind_Ok; [|unfold copy_copy; simpl; rewrite Ho; reflexivity].
    fold q. erewrite bind_Ok; [reflexivity|].
    apply setattr_Ok. apply lookup_insert_eq. }
  simpl. split_all; try done.
  - unfold class_of. by rewrite lookup_insert_eq.
  - unfold attr. rewrite lookup_insert_eq. simpl. by rewrite lookup_insert_eq.
  - intros a Ha. unfold attr. rewrite lookup_insert_eq. simpl.
    by rewrite lookup_insert_ne.
  - by rewrite !lookup_insert_ne.
  - intros l Hl. by rewrite !lookup_insert_ne.
Qed.

(** C1: Qwen.__init__ re-points the data of the head projection weight to
    the data of the embedding weight.  When the constructor of TinyLlama
    returns and leaves the model with tok_embedding.weight.data and
    lm_head.weight, Qwen.__init__ returns, lm_head.weight.data and
    tok_embedding.weight.data are the same value [d], the state differs from
    the one the TinyLlama constructor left in the cell lm_head.weight.data
    only, and an attribute set on the tensor [d] shows through both
    paths. *)
Theorem Qwen_init_shares_embedding_weight
    (ext : handler) (self : loc) (config v d : val) (s : state)
    (h1 : gmap loc obj) (e w lh w' : loc) (o : obj) :
  ext (Call "tiny_llama.TinyLlama.__init__" [VRef self; config] []) (heap s)
    = (inr v, h1) →
  attr h1 self "tok_embedding" = Some (VRef e) →
  attr h1 e "weight" = Some (VRef w) →
  attr h1 w "data" = Some d →
  attr h1 self "lm_head" = Some (VRef lh) →
  attr h1 lh "weight" = Some (VRef w') →
  h1 !! w' = Some o →
  ∃ s2,
    qwen.Qwen__init__ ext (VRef self) config s = Ok tt s2 ∧
    calls s2
      = calls s ++ [Call "tiny_llama.TinyLlama.__init__" [VRef self; config] []] ∧
    read (heap s2) (VRef self) ["lm_head"; "weight"; "data"] = Some d ∧
    read (heap s2) (VRef self) ["tok_embedding"; "weight"; "data"] = Some d ∧
    same_except [(w', "data")] h1 (heap s2) ∧
    ∀ t ot a x,
      d = VRef t → heap s2 !! t = Some ot → t ∉ [self; e; w; lh; w'] →
      ∃ s3,
        setattr (VRef t) a x s2 = Ok tt s3 ∧
        read (heap s3) (VRef self) ["lm_head"; "weight"; "data"; a] = Some x ∧
        read (heap s3) (VRef self) ["tok_embedding"; "weight"; "data"; a] = Some x.
Proof.
  intros Hext He Hw Hd Hlh Hw' Ho. destruct s as [h cs]. simpl in Hext.
  set (h2 := <[w':=Obj (cls o) (<["data":=d]> (attrs o))]> h1).
  assert (Hsame : same_except [(w', "data")] h1 h2)
    by (by apply same_except_setattr).
  assert (Hkeep : ∀ l a, a ≠ "data" → attr h2 l a = attr h1 l a).
  { intros l a Ha. apply (same_except_attr _ _ _ _ _ Hsame).
    intros Hin. apply list_elem_of_singleton in Hin. congruence. }
  assert (Hdata' : attr h2 w' "data" = Some d).
  { unfold attr, h2. rewrite lookup_insert_eq. simpl. by rewrite lookup_insert_eq. }
  assert (Hdata : attr h2 w "data" = Some d).
  { destruct (decide (w = w')) as [->|Hne]; [done|].
    rewrite (same_except_attr _ _ _ _ _ Hsame); [done|].
    intros Hin. apply list_elem_of_singleton in Hin. congruence. }
  assert (Hp1 : ∀ path, read h2 (VRef self) ("lm_head" :: "weight" :: "data" :: path)
                        = read h2 d path).
  { intros path. rewrite (read_cons _ _ _ (VRef lh)) by (by rewrite Hkeep).
    rewrite (read_cons _ _ _ (VRef w')) by (by rewrite Hkeep).
    by rewrite (read_cons _ _ _ d). }
  assert (Hp2 : ∀ path, read h2 (VRef self) ("tok_embedding" :: "weight" :: "data" :: path)
                        = read h2 d path).
  { intros path. rewrite (read_cons _ _ _ (VRef e)) by (by rewrite Hkeep).
    rewrite (read_cons _ _ _ (VRef w)) by (by rewrite Hkeep).
    by rewrite (read_cons _ _ _ d). }
  exists (State h2 (cs ++ [Call "tiny_llama.TinyLlama.__init__" [VRef self; config] []])).
  split.
  { unfold qwen.Qwen__init__.
    erewrite bind_Ok; [|by apply extcall_Ok].
    rewrite (run_getattr _ _ _ _ _ _ He), (run_getattr _ _ _ _ _ _ Hw),
      (run_getattr _ _ _ _ _ _ Hd), (run_getattr _ _ _ _ _ _ Hlh),
      (run_getattr _ _ _ _ _ _ Hw').
    by apply setattr_Ok. }
  cbn [heap calls]. split; [done|].
  split; [by rewrite Hp1|]. split; [by rewrite Hp2|].
  split; [done|].
  intros t ot a x -> Hot Hnot.
  set (h3 := <[t:=Obj (cls ot) (<[a:=x]> (attrs ot))]> h2).
  exists (State h3 (cs ++ [Call "tiny_llama.TinyLlama.__init__" [VRef self; config] []])).
  split; [by apply setattr_Ok|]. cbn [heap calls].
  assert (Hother : ∀ l b, l ≠ t → attr h3 l b = attr h2 l b).
  { intros l b Hl. unfold h3. by apply attr_insert_ne. }
  assert (Hx : attr h3 t a = Some x).
  { unfold attr, h3. rewrite lookup_insert_eq. simpl. by rewrite lookup_insert_eq. }
  assert (self ≠ t ∧ e ≠ t ∧ w ≠ t ∧ lh ≠ t ∧ w' ≠ t) as (?&?&?&?&?).
  { split_all; intros ->; apply Hnot; set_solver. }
  split.
  - rewrite (read_cons _ _ _ (VRef lh)) by (rewrite Hother, Hkeep; done).
    rewrite (read_cons _ _ _ (VRef w')) by (rewrite Hother, Hkeep; done).
    rewrite (read_cons _ _ _ (VRef t)) by (rewrite Hother; done).
    by rewrite (read_cons _ _ _ x).
  - rewrite (read_cons _ _ _ (VRef e)) by (rewrite Hother, Hkeep; done).
    rewrite (read_cons _ _ _ (VRef w)) by (rewrite Hother, Hkeep; done).
    rewrite (read_cons _ _ _ (VRef t)) by (rewrite Hother; done).
    by rewrite (read_cons _ _ _ x).
Qed.

End model_facts.

Section model_instances.
Import Store.

Lemma import_qwen_copies_tensor_names_witness :
  heap qwen.example_state !! 0%nat = Some qwen.example_tensor_names ∧
  ∃ q s',
    qwen.import_qwen (VRef 0%nat) qwen.example_state = Ok (VRef q) s' ∧
    attr (heap s') q "lm_head" = Some VNone ∧
    attr (heap s') 0%nat "lm_head" = Some (VStr "lm_head").
Proof.
  assert (H : heap qwen.example_state !! 0%nat = Some qwen.example_tensor_names)
    by reflexivity.
  split; [exact H|].
  destruct (import_qwen_copies_tensor_names _ _ _ H)
    as (q & s' & Hrun & _ & _ & _ & Hq & _ & Ht & _).
  exists q, s'. split; [exact Hrun|]. split; [exact Hq|].
  unfold attr. rewrite Ht. reflexivity.
Defined.

Lemma Qwen_init_shares_embedding_weight_witness :
  ∃ s2 d,
    qwen.Qwen__init__ qwen.example_ext (VRef 2%nat) VNone qwen.example_state
      = Ok tt s2 ∧
    read (heap s2) (VRef 2%nat) ["lm_head"; "weight"; "data"] = Some d ∧
    read (heap s2) (VRef 2%nat) ["tok_embedding"; "weight"; "data"] = Some d.
Proof.
  edestruct (Qwen_init_shares_embedding_weight qwen.example_ext 2%nat VNone)
    with (s := qwen.example_state)
    as (s2 & Hrun & _ & Hl & He & _);
    [> vm_compute; reflexivity .. | ].
  eexists _, _. split; [exact Hrun|]. split; [exact Hl|exact He].
Defined.

End model_instances.

(** * The conversion tests *)

Section test_facts.
Import test_model_conversion_large.
Context {Config Model KVCache EdgeModel Converter TFLiteModel : Type}.

Abbreviation env_type :=
  (∀ X, ext Config Model KVCache EdgeModel Converter TFLiteModel X → option X).
Abbreviation reached r := (verdict_of r.2 ∈ [Passed; Failed]).

(** The sample inputs that the three tests build. *)
Abbreviation sample_tokens :=
  {| shape := [1; 10]%nat; elem_type := int64; device := "cpu";
     data := [1; 2; 3; 4; 0; 0; 0; 0; 0; 0] |}.
Abbreviation sample_input_pos :=
  {| shape := [10]%nat; elem_type := int64; device := "cpu";
     data := [0; 1; 2; 3; 4; 5; 6; 7; 8; 9] |}.

Lemma tokens_built :
  setitem_row_prefix (torch_full [1; 10]%nat 0 int64 "cpu") 0 4
    (torch_from_numpy (np_array [[1; 2; 3; 4]]))
  = Some sample_tokens.
Proof. reflexivity. Qed.

Lemma input_pos_built : torch_arange 0 10 = sample_input_pos.
Proof. reflexivity. Qed.

Lemma not_reached_Errored : ¬ (Errored ∈ [Passed; Failed]).
Proof. intros H. repeat (apply elem_of_cons in H as [H|H]; [discriminate|]).
  by apply elem_of_nil in H. Qed.

Lemma not_reached_Skipped : ¬ (Skipped ∈ [Passed; Failed]).
Proof. intros H. repeat (apply elem_of_cons in H as [H|H]; [discriminate|]).
  by apply elem_of_nil in H. Qed.

(** A call of a test that reaches its verdict was answered. *)
Lemma run_call_reached {X} (env : env_type) (c : ext _ _ _ _ _ _ X)
    (k : X → prog _ _ _ _ _ _ unit) :
  reached (run env (Vis c k)) →
  ∃ x, env _ c = Some x ∧
       run env (Vis c k) = (Event c :: (run env (k x)).1, (run env (k x)).2) ∧
       reached (run env (k x)).
Proof.
  simpl. destruct (env X c) as [x|]; simpl.
  - intros H. exists x. destruct (run env (k x)) as [t r]. simpl in *. done.
  - intros H. by apply not_reached_Errored in H.
Qed.

Lemma run_assertTrue (env : env_type) (same : bool) :
  run env (assertTrue _ _ _ _ _ _ same)
  = ([], if same then inr tt else inl AssertionError).
Proof. by destruct same. Qed.

Ltac answered H :=
  let x := fresh "x" in
  let Hx := fresh "Hx" in
  let Hrun := fresh "Hrun" in
  apply run_call_reached in H as (x & Hx & Hrun & H);
  rewrite Hrun; clear Hrun; cbn [fst snd].

Lemma test_gemma_run (xla : bool) (env : env_type) :
  reached (run env (test_gemma xla)) →
  ∃ config model kv edge tflite same,
    xla = false ∧
    env _ (get_fake_model_config gemma) = Some config ∧
    env _ (new_model gemma config) = Some model ∧
    env _ (KVCache_from_model_config config) = Some kv ∧
    env _ (ai_edge_torch_convert model
             [ ("tokens", STensor sample_tokens);
               ("input_pos", STensor sample_input_pos);
               ("kv_cache", SKVCache kv) ]) = Some edge ∧
    env _ (tflite_model edge) = Some tflite ∧
    env _ (compare_tflite_torch edge model sample_tokens sample_input_pos kv
             "serving_default" 1e-2 1e-5) = Some same ∧
    run env (test_gemma xla)
    = ([ Event (get_fake_model_config gemma);
         Event (new_model gemma config);
         Event (KVCache_from_model_config config);
         Event (ai_edge_torch_convert model
                  [ ("tokens", STensor sample_tokens);
                    ("input_pos", STensor sample_input_pos);
                    ("kv_cache", SKVCache kv) ]);
         Event (tflite_model edge);
         Event (set_interpreter_builder edge (_interpreter_builder _ tflite));
         Event (compare_tflite_torch edge model sample_tokens sample_input_pos kv
                  "serving_default" 1e-2 1e-5) ],
       if same then inr tt else inl AssertionError).
Proof.
  intros H. unfold test_gemma, skipIf in *.
  destruct xla; [by apply not_reached_Skipped in H|].
  unfold test_gemma_body in *. rewrite tokens_built, input_pos_built in *.
  cbn [mbind prog_bind bind call torch] in *.
  do 6 answered H.
  apply run_call_reached in H as (same & Hsame & Hrun & H).
  rewrite Hrun, run_assertTrue. cbn [fst snd].
  destruct x4. eexists _, _, _, _, _, _. split_all; try eassumption; reflexivity.
Qed.

Lemma test_gemma2_run (xla : bool) (env : env_type) :
  reached (run env (test_gemma2 xla)) →
  ∃ config model evaluated kv converter edge tflite same,
    xla = false ∧
    env _ (get_fake_model_config gemma2) = Some config ∧
    env _ (new_model gemma2 config) = Some model ∧
    env _ (Module_eval model) = Some evaluated ∧
    env _ (KVCache_from_model_config config) = Some kv ∧
    env _ (ai_edge_torch_signature "prefill" model
             [ ("tokens", STensor sample_tokens);
               ("input_pos", STensor sample_input_pos);
               ("kv_cache", SKVCache kv) ]) = Some converter ∧
    env _ (Converter_convert converter) = Some edge ∧
    env _ (tflite_model edge) = Some tflite ∧
    env _ (compare_tflite_torch edge model sample_tokens sample_input_pos kv
             "prefill" 1e-1 1e-3) = Some same ∧
    run env (test_gemma2 xla)
    = ([ Event (get_fake_model_config gemma2);
         Event (new_model gemma2 config);
         Event (Module_eval model);
         Event (KVCache_from_model_config config);
         Event (ai_edge_torch_signature "prefill" model
                  [ ("tokens", STensor sample_tokens);
                    ("input_pos", STensor sample_input_pos);
                    ("kv_cache", SKVCache kv) ]);
         Event (Converter_convert converter);
         Event (tflite_model edge);
         Event (set_interpreter_builder edge (_interpreter_builder _ tflite));
         Event (compare_tflite_torch edge model sample_tokens sample_input_pos kv
                  "prefill" 1e-1 1e-3) ],
       if same then inr tt else inl AssertionError).
Proof.
  intros H. unfold test_gemma2, skipIf in *.
  destruct xla; [by apply not_reached_Skipped in H|].
  unfold test_gemma2_body in *. rewrite tokens_built, input_pos_built in *.
  cbn [mbind prog_bind bind call torch] in *.
  do 8 answered H.
  apply run_call_reached in H as (same & Hsame & Hrun & H).
  rewrite Hrun, run_assertTrue. cbn [fst snd].
  destruct x6. eexists _, _, _, _, _, _, _, _.
  split_all; try eassumption; reflexivity.
Qed.

Lemma test_phi2_run (xla : bool) (env : env_type) :
  reached (run env (test_phi2 xla)) →
  ∃ config model pytorch_model kv edge tflite same,
    xla = false ∧
    env _ (get_fake_model_config phi2) = Some config ∧
    env _ (new_model phi2 config) = Some model ∧
    env _ (Module_eval model) = Some pytorch_model ∧
    env _ (KVCache_from_model_config config) = Some kv ∧
    env _ (ai_edge_torch_convert pytorch_model
             [ ("tokens", STensor sample_tokens);
               ("input_pos", STensor sample_input_pos);
               ("kv_cache", SKVCache kv) ]) = Some edge ∧
    env _ (tflite_model edge) = Some tflite ∧
    env _ (compare_tflite_torch edge pytorch_model sample_tokens
             sample_input_pos kv "serving_default" 1e-3 1e-3) = Some same ∧
    run env (test_phi2 xla)
    = ([ Event (get_fake_model_config phi2);
         Event (new_model phi2 config);
         Event (Module_eval model);
         Event (KVCache_from_model_config config);
         Event (ai_edge_torch_convert pytorch_model
                  [ ("tokens", STensor sample_tokens);
                    ("input_pos", STensor sample_input_pos);
                    ("kv_cache", SKVCache kv) ]);
         Event (tflite_model edge);
         Event (set_interpreter_builder edge (_interpreter_builder _ tflite));
         Event (compare_tflite_torch edge pytorch_model sample_tokens
                  sample_input_pos kv "serving_default" 1e-3 1e-3) ],
       if same then inr tt else inl AssertionError).
Proof.
  intros H. unfold test_phi2, skipIf in *.
  destruct xla; [by apply not_reached_Skipped in H|].
  unfold test_phi2_body in *. rewrite tokens_built, input_pos_built in *.
  cbn [mbind prog_bind bind call torch] in *.
  do 7 answered H.
  apply run_call_reached in H as (same & Hsame & Hrun & H).
  rewrite Hrun, run_assertTrue. cbn [fst snd].
  destruct x5. eexists _, _, _, _, _, _, _.
  split_all; try eassumption; reflexivity.
Qed.

Lemma verdict_of_assert (same : bool) :
  verdict_of (if same then inr tt else inl AssertionError)
  = if same then Passed else Failed.
Proof. by destruct same. Qed.

Abbreviation sample_kwargs kv :=
  [ ("tokens", STensor sample_tokens);
    ("input_pos", STensor sample_input_pos);
    ("kv_cache", SKVCache kv) ].

Ltac solve_elem_of :=
  repeat first [ apply list_elem_of_here | apply list_elem_of_further ].

(** C5: each of test_gemma, test_gemma2 and test_phi2, when it runs to its
    verdict, has converted its model to an edge model and then called
    compare_tflite_torch, last, on that edge model, the model that was
    converted and the sample inputs of the conversion, with atol=1e-2 and
    rtol=1e-5 for gemma, atol=1e-1 and rtol=1e-3 for gemma2, atol=1e-3 and
    rtol=1e-3 for phi2; the test passes when the comparison answers True and
    fails when it answers False.  A test runs to a verdict when it is not
    skipped (Config.use_torch_xla is false) and no call raises. *)
Theorem tests_assert_comparison (xla : bool) (env : env_type) :
  (reached (run env (test_gemma xla)) →
   ∃ model kv edge pre mid same,
     xla = false ∧
     env _ (ai_edge_torch_convert model (sample_kwargs kv)) = Some edge ∧
     env _ (compare_tflite_torch edge model sample_tokens sample_input_pos kv
              "serving_default" 1e-2 1e-5) = Some same ∧
     (run env (test_gemma xla)).1
     = pre ++ Event (ai_edge_torch_convert model (sample_kwargs kv)) :: mid
       ++ [Event (compare_tflite_torch edge model sample_tokens
                    sample_input_pos kv "serving_default" 1e-2 1e-5)] ∧
     verdict_of (run env (test_gemma xla)).2
     = if same then Passed else Failed) ∧
  (reached (run env (test_gemma2 xla)) →
   ∃ model kv converter edge pre mid same,
     xla = false ∧
     env _ (ai_edge_torch_signature "prefill" model (sample_kwargs kv))
       = Some converter ∧
     env _ (Converter_convert converter) = Some edge ∧
     env _ (compare_tflite_torch edge model sample_tokens sample_input_pos kv
              "prefill" 1e-1 1e-3) = Some same ∧
     (run env (test_gemma2 xla)).1
     = pre ++ Event (ai_edge_torch_signature "prefill" model (sample_kwargs kv))
       :: Event (Converter_convert converter) :: mid
       ++ [Event (compare_tflite_torch edge model sample_tokens
                    sample_input_pos kv "prefill" 1e-1 1e-3)] ∧
     verdict_of (run env (test_gemma2 xla)).2
     = if same then Passed else Failed) ∧
  (reached (run env (test_phi2 xla)) →
   ∃ model kv edge pre mid same,
     xla = false ∧
     env _ (ai_edge_torch_convert model (sample_kwargs kv)) = Some edge ∧
     env _ (compare_tflite_torch edge model sample_tokens sample_input_pos kv
              "serving_default" 1e-3 1e-3) = Some same ∧
     (run env (test_phi2 xla)).1
     = pre ++ Event (ai_edge_torch_convert model (sample_kwargs kv)) :: mid
       ++ [Event (compare_tflite_torch edge model sample_tokens
                    sample_input_pos kv "serving_default" 1e-3 1e-3)] ∧
     verdict_of (run env (test_phi2 xla)).2
     = if same then Passed else Failed).
Proof.
  split; [|split].
  - intros H.
    destruct (test_gemma_run xla env H)
      as (config & model & kv & edge & tflite & same & Hx & _ & _ & _ & Hc & _
          & Hs & ->).
    exists model, kv, edge, [Event (get_fake_model_config gemma);
      Event (new_model gemma config); Event (KVCache_from_model_config config)],
      [Event (tflite_model edge);
       Event (set_interpreter_builder edge (_interpreter_builder _ tflite))], same.
    split_all; try done. apply verdict_of_assert.
  - intros H.
    destruct (test_gemma2_run xla env H)
      as (config & model & ev & kv & converter & edge & tflite & same & Hx & _
          & _ & _ & _ & Hsig & Hc & _ & Hs & ->).
    exists model, kv, converter, edge, [Event (get_fake_model_config gemma2);
      Event (new_model gemma2 config); Event (Module_eval model);
      Event (KVCache_from_model_config config)],
      [Event (tflite_model edge);
       Event (set_interpreter_builder edge (_interpreter_builder _ tflite))], same.
    split_all; try done. apply verdict_of_assert.
  - intros H.
    destruct (test_phi2_run xla env H)
      as (config & model & pm & kv & edge & tflite & same & Hx & _ & _ & _ & _
          & Hc & _ & Hs & ->).
    exists pm, kv, edge, [Event (get_fake_model_config phi2);
      Event (new_model phi2 config); Event (Module_eval model);
      Event (KVCache_from_model_config config)],
      [Event (tflite_model edge);
       Event (set_interpreter_builder edge (_interpreter_builder _ tflite))], same.
    split_all; try done. apply verdict_of_assert.
Qed.

(** C6: the three tests build the same sample inputs: a token tensor of
    shape (1, 10) of long integers with 1, 2, 3, 4 at positions 0 to 3 and 0
    at positions 4 to 9, an input-position tensor equal to 0, 1, ..., 9, and
    a KV cache that KVCache.from_model_config makes from the fake config from
    which the model of the test is made.  These are the sample_kwargs of the
    conversion of each test that runs to its verdict. *)
Theorem tests_build_same_sample_inputs :
  ∃ tokens input_pos : Tensor,
    shape tokens = [1; 10]%nat ∧
    elem_type tokens = int64 ∧
    length (data tokens) = 10%nat ∧
    (∀ i, (i < 4)%nat → data tokens !! i = Some (Z.of_nat i + 1)) ∧
    (∀ i, (4 ≤ i < 10)%nat → data tokens !! i = Some 0) ∧
    shape input_pos = [10]%nat ∧
    elem_type input_pos = int64 ∧
    data input_pos = seqZ 0 10 ∧
    ∀ (xla : bool) (env : env_type),
      (reached (run env (test_gemma xla)) →
       ∃ config model kv,
         env _ (get_fake_model_config gemma) = Some config ∧
         env _ (new_model gemma config) = Some model ∧
         env _ (KVCache_from_model_config config) = Some kv ∧
         Event (ai_edge_torch_convert model
                  [ ("tokens", STensor tokens); ("input_pos", STensor input_pos);
                    ("kv_cache", SKVCache kv) ])
           ∈ (run env (test_gemma xla)).1) ∧
      (reached (run env (test_gemma2 xla)) →
       ∃ config model kv,
         env _ (get_fake_model_config gemma2) = Some config ∧
         env _ (new_model gemma2 config) = Some model ∧
         env _ (KVCache_from_model_config config) = Some kv ∧
         Event (ai_edge_torch_signature "prefill" model
                  [ ("tokens", STensor tokens); ("input_pos", STensor input_pos);
                    ("kv_cache", SKVCache kv) ])
           ∈ (run env (test_gemma2 xla)).1) ∧
      (reached (run env (test_phi2 xla)) →
       ∃ config model pytorch_model kv,
         env _ (get_fake_model_config phi2) = Some config ∧
         env _ (new_model phi2 config) = Some model ∧
         env _ (Module_eval model) = Some pytorch_model ∧
         env _ (KVCache_from_model_config config) = Some kv ∧
         Event (ai_edge_torch_convert pytorch_model
                  [ ("tokens", STensor tokens); ("input_pos", STensor input_pos);
                    ("kv_cache", SKVCache kv) ])
           ∈ (run env (test_phi2 xla)).1).
Proof.
  exists sample_tokens, sample_input_pos. cbn [shape elem_type data].
  split_all; try reflexivity.
  - intros i Hi. do 4 (destruct i as [|i]; [reflexivity|]). lia.
  - intros i [Hlo Hhi].
    do 4 (destruct i as [|i]; [lia|]).
    do 6 (destruct i as [|i]; [reflexivity|]). lia.
  - intros xla env. split_all; intros H.
    + destruct (test_gemma_run xla env H)
        as (config & model & kv & edge & tflite & same & _ & Hc & Hm & Hk & _
            & _ & _ & ->).
      exists config, model, kv. split_all; try done. cbn [fst]. solve_elem_of.
    + destruct (test_gemma2_run xla env H)
        as (config & model & ev & kv & converter & edge & tflite & same & _ & Hc
            & Hm & _ & Hk & _ & _ & _ & _ & ->).
      exists config, model, kv. split_all; try done. cbn [fst]. solve_elem_of.
    + destruct (test_phi2_run xla env H)
        as (config & model & pm & kv & edge & tflite & same & _ & Hc & Hm & He
            & Hk & _ & _ & _ & ->).
      exists config, model, pm, kv. split_all; try done. cbn [fst].
      solve_elem_of.
Qed.

Abbreviation names_match trace :=
  (∀ e1 e2 n1 n2,
     e1 ∈ trace → e2 ∈ trace →
     conversion_signature e1 = Some n1 →
     comparison_signature e2 = Some n2 → n1 = n2).

Abbreviation only_conversion trace c :=
  (∀ e n, e ∈ trace → conversion_signature e = Some n → e = c).

Ltac cases_elem_of H :=
  repeat (apply elem_of_cons in H as [->|H]);
  [ .. | by apply elem_of_nil in H ].

Ltac solve_names_match :=
  let H1 := fresh in
  let H2 := fresh in
  let Hc := fresh in
  let Hk := fresh in
  intros ? ? ? ? H1 H2 Hc Hk;
  cases_elem_of H1; cbn in Hc; try discriminate Hc;
  cases_elem_of H2; cbn in Hk; try discriminate Hk;
  cbn in Hc, Hk; unfold DEFAULT_SIGNATURE_NAME in *; congruence.

Ltac solve_only_conversion :=
  let H := fresh in
  let Hc := fresh in
  intros ? ? H Hc; cases_elem_of H; cbn in Hc; try discriminate Hc; reflexivity.

(** C7: test_gemma2 converts under the signature named prefill and compares
    with signature_name=prefill; test_gemma and test_phi2 convert with
    ai_edge_torch.convert, which takes no signature name, and compare with
    signature_name=serving_default; in each test the name under which it
    converts is the name under which it compares. *)
Theorem tests_signature_names (xla : bool) (env : env_type) :
  (reached (run env (test_gemma2 xla)) →
   ∃ model kwargs edge tokens input_pos kv atol rtol,
     Event (ai_edge_torch_signature "prefill" model kwargs)
       ∈ (run env (test_gemma2 xla)).1 ∧
     only_conversion (run env (test_gemma2 xla)).1
       (Event (ai_edge_torch_signature "prefill" model kwargs)) ∧
     Event (compare_tflite_torch edge model tokens input_pos kv "prefill"
              atol rtol) ∈ (run env (test_gemma2 xla)).1 ∧
     names_match (run env (test_gemma2 xla)).1) ∧
  (reached (run env (test_gemma xla)) →
   ∃ model kwargs edge tokens input_pos kv atol rtol,
     Event (ai_edge_torch_convert model kwargs) ∈ (run env (test_gemma xla)).1 ∧
     only_conversion (run env (test_gemma xla)).1
       (Event (ai_edge_torch_convert model kwargs)) ∧
     Event (compare_tflite_torch edge model tokens input_pos kv
              "serving_default" atol rtol) ∈ (run env (test_gemma xla)).1 ∧
     names_match (run env (test_gemma xla)).1) ∧
  (reached (run env (test_phi2 xla)) →
   ∃ model kwargs edge tokens input_pos kv atol rtol,
     Event (ai_edge_torch_convert model kwargs) ∈ (run env (test_phi2 xla)).1 ∧
     only_conversion (run env (test_phi2 xla)).1
       (Event (ai_edge_torch_convert model kwargs)) ∧
     Event (compare_tflite_torch edge model tokens input_pos kv
              "serving_default" atol rtol) ∈ (run env (test_phi2 xla)).1 ∧
     names_match (run env (test_phi2 xla)).1).
Proof.
  split; [|split].
  - intros H.
    destruct (test_gemma2_run xla env H)
      as (config & model & ev & kv & converter & edge & tflite & same & _ & _
          & _ & _ & _ & _ & _ & _ & _ & ->).
    eexists model, _, edge, _, _, kv, _, _. cbn [fst].
    split; [solve_elem_of|]. split; [solve_only_conversion|].
    split; [solve_elem_of|]. solve_names_match.
  - intros H.
    destruct (test_gemma_run xla env H)
      as (config & model & kv & edge & tflite & same & _ & _ & _ & _ & _ & _
          & _ & ->).
    eexists model, _, edge, _, _, kv, _, _. cbn [fst].
    split; [solve_elem_of|]. split; [solve_only_conversion|].
    split; [solve_elem_of|]. solve_names_match.
  - intros H.
    destruct (test_phi2_run xla env H)
      as (config & model & pm & kv & edge & tflite & same & _ & _ & _ & _ & _
          & _ & _ & _ & ->).
    eexists pm, _, edge, _, _, kv, _, _. cbn [fst].
    split; [solve_elem_of|]. split; [solve_only_conversion|].
    split; [solve_elem_of|]. solve_names_match.
Qed.

End test_facts.

Section test_instances.
Import test_model_conversion_large.

Abbreviation reached r := (verdict_of r.2 ∈ [Passed; Failed]).

Lemma tests_assert_comparison_witness :
  reached (run (example_env true) (test_gemma false)) ∧
  reached (run (example_env false) (test_gemma2 false)) ∧
  reached (run (example_env true) (test_phi2 false)) ∧
  verdict_of (run (example_env true) (test_gemma false)).2 = Passed ∧
  verdict_of (run (example_env false) (test_gemma2 false)).2 = Failed ∧
  verdict_of (run (example_env true) (test_phi2 false)).2 = Passed.
Proof.
  assert (Hg : reached (run (example_env true) (test_gemma false)))
    by (vm_compute; apply list_elem_of_here).
  assert (Hg2 : reached (run (example_env false) (test_gemma2 false)))
    by (vm_compute; apply list_elem_of_further, list_elem_of_here).
  assert (Hp : reached (run (example_env true) (test_phi2 false)))
    by (vm_compute; apply list_elem_of_here).
  split; [exact Hg|]. split; [exact Hg2|]. split; [exact Hp|].
  split; [|split].
  - destruct (tests_assert_comparison false (example_env true)) as (T & _ & _).
    destruct (T Hg) as (model & kv & edge & pre & mid & same & _ & _ & Hs & _ & ->).
    injection Hs as <-. reflexivity.
  - destruct (tests_assert_comparison false (example_env false)) as (_ & T & _).
    destruct (T Hg2)
      as (model & kv & cv & edge & pre & mid & same & _ & _ & _ & Hs & _ & ->).
    injection Hs as <-. reflexivity.
  - destruct (tests_assert_comparison false (example_env true)) as (_ & _ & T).
    destruct (T Hp) as (model & kv & edge & pre & mid & same & _ & _ & Hs & _ & ->).
    injection Hs as <-. reflexivity.
Defined.

Lemma tests_build_same_sample_inputs_witness :
  reached (run (example_env true) (test_gemma false)) ∧
  ∃ tokens input_pos : Tensor,
    data tokens !! 0%nat = Some 1 ∧
    data tokens !! 9%nat = Some 0 ∧
    data input_pos = [0; 1; 2; 3; 4; 5; 6; 7; 8; 9] ∧
    Event (ai_edge_torch_convert 2%nat
             [ ("tokens", STensor tokens); ("input_pos", STensor input_pos);
               ("kv_cache", SKVCache 3%nat) ])
      ∈ (run (example_env true) (test_gemma false)).1.
Proof.
  assert (Hg : reached (run (example_env true) (test_gemma false)))
    by (vm_compute; apply list_elem_of_here).
  split; [exact Hg|].
  destruct (@tests_build_same_sample_inputs nat nat nat nat nat nat)
    as (tokens & input_pos & _ & _ & _ & Hlow & Hhigh & _ & _ & Hpos & T).
  destruct (T false (example_env true)) as (Tg & _ & _).
  destruct (Tg Hg) as (config & model & kv & Hc & Hm & Hk & Hin).
  injection Hc as <-. injection Hm as <-. injection Hk as <-.
  exists tokens, input_pos.
  split; [exact (Hlow 0%nat ltac:(lia))|].
  split; [exact (Hhigh 9%nat ltac:(lia))|].
  split; [exact Hpos|exact Hin].
Defined.

Lemma tests_signature_names_witness :
  reached (run (example_env true) (test_gemma2 false)) ∧
  ∃ model kwargs edge tokens input_pos kv atol rtol,
    Event (ai_edge_torch_signature "prefill" model kwargs)
      ∈ (run (example_env true) (test_gemma2 false)).1 ∧
    Event (compare_tflite_torch edge model tokens input_pos kv "prefill"
             atol rtol) ∈ (run (example_env true) (test_gemma2 false)).1.
Proof.
  assert (Hg2 : reached (run (example_env true) (test_gemma2 false)))
    by (vm_compute; apply list_elem_of_here).
  split; [exact Hg2|].
  destruct (tests_signature_names false (example_env true)) as (T & _ & _).
  destruct (T Hg2)
    as (model & kwargs & edge & tokens & input_pos & kv & atol & rtol & Hs & _
        & Hc & _).
  exists model, kwargs, edge, tokens, input_pos, kv, atol, rtol.
  split; [exact Hs|exact Hc].
Defined.

End test_instances.

(** * Further facts about the model configurations *)

Section config_extra.
Import Store.
Variable field_defaults : string → gmap string val.

Abbreviation get_3b_model_config := (qwen.get_3b_model_config field_defaults).
Abbreviation get_1_5b_model_config := (qwen.get_1_5b_model_config field_defaults).
Abbreviation get_0_5b_model_config := (qwen.get_0_5b_model_config field_defaults).
Abbreviation get_fake_model_config := (qwen.get_fake_model_config field_defaults).

(** X1: the config builders only allocate.  For an argument of any type,
    each builder returns a reference to an object that the start heap did
    not hold and leaves every object of the start heap as it was: a config
    returned by an earlier call is never altered by a later one. *)
Theorem builders_only_allocate (v : val) (kwargs : gmap string val)
    (m : M val) (s : state) :
  dom kwargs ⊆ ({[ "kv_cache_max_len" ]} : gset string) →
  m ∈ [ get_3b_model_config v; get_1_5b_model_config v;
        get_0_5b_model_config v; get_fake_model_config kwargs ] →
  ∃ c s',
    m s = Ok (VRef c) s' ∧
    heap s !! c = None ∧
    ∀ l o, heap s !! l = Some o → heap s' !! l = Some o.
Proof.
  intros Hkw Hm. destruct s as [h cs].
  repeat (apply elem_of_cons in Hm as [->|Hm]); [| | | |by apply elem_of_nil in Hm].
  all: unfold_config; run; eexists _, _.
  all: split; [reflexivity|]; cbn [heap calls].
  all: split; [assumption|].
  all: intros l' o' Hlo; heap_lookup; exact Hlo.
Qed.

Lemma bind_Err {A B} (m : M A) (f : A → M B) s e s' :
  m s = Err e s' → (m ≫= f) s = Err e s'.
Proof. unfold mbind, M_bind. by intros ->. Qed.

Lemma bind_kv_cache_max_len_unknown (kwargs : gmap string val) key x s :
  kwargs !! key = Some x → key ≠ "kv_cache_max_len" →
  qwen.bind_kv_cache_max_len kwargs s = Err TypeError s.
Proof.
  intros Hk Hne. unfold qwen.bind_kv_cache_max_len.
  rewrite decide_False; [done|].
  intros Hsub. apply Hne.
  assert (Hin : key ∈ dom kwargs) by (apply elem_of_dom; by exists x).
  apply Hsub in Hin. by apply elem_of_singleton in Hin.
Qed.

(** X2: a keyword other than kv_cache_max_len is a TypeError.  Called with
    such a keyword, the three config getters, get_fake_model_config and the
    three model builders raise TypeError in the state they were called in:
    no config object is allocated, and the builders make no call, so neither
    the model is constructed nor the checkpoint opened. *)
Theorem unknown_keyword_raises_TypeError
    (ext : handler) (TENSOR_NAMES checkpoint_path x : val)
    (kwargs : gmap string val) (key : string) (s : state) :
  kwargs !! key = Some x → key ≠ "kv_cache_max_len" →
  qwen.get_3b_model_config_kw field_defaults kwargs s = Err TypeError s ∧
  qwen.get_1_5b_model_config_kw field_defaults kwargs s = Err TypeError s ∧
  qwen.get_0_5b_model_config_kw field_defaults kwargs s = Err TypeError s ∧
  get_fake_model_config kwargs s = Err TypeError s ∧
  qwen.build_3b_model ext field_defaults TENSOR_NAMES checkpoint_path kwargs s
    = Err TypeError s ∧
  qwen.build_1_5b_model ext field_defaults TENSOR_NAMES checkpoint_path kwargs s
    = Err TypeError s ∧
  qwen.build_0_5b_model ext field_defaults TENSOR_NAMES checkpoint_path kwargs s
    = Err TypeError s.
Proof.
  intros Hk Hne.
  pose proof (bind_kv_cache_max_len_unknown kwargs key x s Hk Hne) as Hb.
  assert (H3 : qwen.get_3b_model_config_kw field_defaults kwargs s = Err TypeError s)
    by (by apply bind_Err).
  assert (H15 : qwen.get_1_5b_model_config_kw field_defaults kwargs s = Err TypeError s)
    by (by apply bind_Err).
  assert (H05 : qwen.get_0_5b_model_config_kw field_defaults kwargs s = Err TypeError s)
    by (by apply bind_Err).
  split_all; try done; by apply bind_Err.
Qed.

(** X3: in the config of every builder the attention width is the
    embedding width, num_heads * head_dim = embedding_dim, and the heads
    divide evenly into the query groups; the overrides of the 1.5B, 0.5B and
    fake configs keep both. *)
Theorem attention_width_is_embedding_dim (k : Z) (kwargs : gmap string val)
    (m : M val) (s : state) :
  dom kwargs ⊆ ({[ "kv_cache_max_len" ]} : gset string) →
  m ∈ [ get_3b_model_config (VInt k); get_1_5b_model_config (VInt k);
        get_0_5b_model_config (VInt k); get_fake_model_config kwargs ] →
  ∃ c s' num_heads head_dim num_query_groups embedding_dim,
    m s = Ok (VRef c) s' ∧
    read (heap s') (VRef c) ["block_configs"; "attn_config"; "num_heads"]
      = Some (VInt num_heads) ∧
    read (heap s') (VRef c) ["block_configs"; "attn_config"; "head_dim"]
      = Some (VInt head_dim) ∧
    read (heap s') (VRef c) ["block_configs"; "attn_config"; "num_query_groups"]
      = Some (VInt num_query_groups) ∧
    read (heap s') (VRef c) ["embedding_dim"] = Some (VInt embedding_dim) ∧
    num_heads * head_dim = embedding_dim ∧
    0 < num_query_groups ∧
    num_heads mod num_query_groups = 0.
Proof.
  intros Hkw Hm. destruct s as [h cs].
  repeat (apply elem_of_cons in Hm as [->|Hm]); [| | | |by apply elem_of_nil in Hm].
  all: unfold_config; run; eexists _, _, _, _, _, _.
  all: split; [reflexivity|]; cbn [heap calls].
  all: split; [solve_read|]; split; [solve_read|]; split; [solve_read|].
  all: split; [solve_read|]; split; [reflexivity|]; split; reflexivity.
Qed.

(** X4: the norm config is shared inside one config and not between
    configs.  When a 3B config and then a 1.5B config are built, the two are
    different objects with different norm configs, the first still has its 3B
    values, and an attribute set through the norm config of the first shows
    in the three norm fields of the first and in none of the second. *)
Theorem norm_config_not_shared_between_configs (k1 k2 : Z) (s : state) :
  ∃ c1 c2 n1 n2 s2,
    (c1 ← get_3b_model_config (VInt k1);
     c2 ← get_1_5b_model_config (VInt k2);
     mret (c1, c2)) s = Ok (VRef c1, VRef c2) s2 ∧
    c1 ≠ c2 ∧ n1 ≠ n2 ∧
    read (heap s2) (VRef c1) ["final_norm_config"] = Some (VRef n1) ∧
    read (heap s2) (VRef c2) ["final_norm_config"] = Some (VRef n2) ∧
    read (heap s2) (VRef c1) ["num_layers"] = Some (VInt 36) ∧
    read (heap s2) (VRef c1) ["embedding_dim"] = Some (VInt 2048) ∧
    read (heap s2) (VRef c1) ["kv_cache_max_len"] = Some (VInt k1) ∧
    read (heap s2) (VRef c1) ["block_configs"; "attn_config"; "num_heads"]
      = Some (VInt 16) ∧
    read (heap s2) (VRef c1) ["block_configs"; "ff_config"; "intermediate_size"]
      = Some (VInt 11008) ∧
    ∀ v, ∃ s3,
      setattr (VRef n1) "epsilon" v s2 = Ok tt s3 ∧
      read (heap s3) (VRef c1) ["final_norm_config"; "epsilon"] = Some v ∧
      read (heap s3) (VRef c1)
        ["block_configs"; "pre_attention_norm_config"; "epsilon"] = Some v ∧
      read (heap s3) (VRef c1)
        ["block_configs"; "post_attention_norm_config"; "epsilon"] = Some v ∧
      read (heap s3) (VRef c2) ["final_norm_config"; "epsilon"]
        = Some (VFloat 1e-06) ∧
      read (heap s3) (VRef c2)
        ["block_configs"; "pre_attention_norm_config"; "epsilon"]
        = Some (VFloat 1e-06) ∧
      read (heap s3) (VRef c2)
        ["block_configs"; "post_attention_norm_config"; "epsilon"]
        = Some (VFloat 1e-06).
Proof.
  destruct s as [h cs]. unfold_config. run.
  eexists _, _, _, _, _.
  split; [reflexivity|]. cbn [heap calls].
  split; [congruence|].
  split; [|split; [solve_read|]; split; [solve_read|]].
  { congruence. }
  split_all; try solve_read.
  intros v. eexists. split; [solve_setattr|]. cbn [heap calls].
  split_all; solve_read.
Qed.

End config_extra.

Section config_extra_instances.
Import Store.

Lemma builders_only_allocate_witness :
  ∃ c s',
    qwen.get_0_5b_model_config (λ _, ∅) (VStr "not a number")
      (State {[ 0%nat := qwen.example_tensor_names ]} []) = Ok (VRef c) s' ∧
    heap s' !! 0%nat = Some qwen.example_tensor_names.
Proof.
  destruct (builders_only_allocate (λ _, ∅) (VStr "not a number") ∅
              (qwen.get_0_5b_model_config (λ _, ∅) (VStr "not a number"))
              (State {[ 0%nat := qwen.example_tensor_names ]} []))
    as (c & s' & Hrun & _ & Hkeep).
  - rewrite dom_empty_L. apply empty_subseteq.
  - apply list_elem_of_further, list_elem_of_further, list_elem_of_here.
  - exists c, s'. split; [exact Hrun|]. apply Hkeep. reflexivity.
Defined.

Lemma unknown_keyword_raises_TypeError_witness :
  qwen.get_fake_model_config (λ _, ∅) {[ "max_seq_len" := VInt 64 ]}
    qwen.example_state = Err TypeError qwen.example_state ∧
  qwen.build_3b_model qwen.example_ext (λ _, ∅) (VRef 1%nat) (VStr "qwen.ckpt")
    {[ "max_seq_len" := VInt 64 ]} qwen.example_state
  = Err TypeError qwen.example_state.
Proof.
  destruct (unknown_keyword_raises_TypeError (λ _, ∅) qwen.example_ext
              (VRef 1%nat) (VStr "qwen.ckpt") (VInt 64)
              {[ "max_seq_len" := VInt 64 ]} "max_seq_len" qwen.example_state)
    as (_ & _ & _ & Hf & Hb & _).
  - reflexivity.
  - discriminate.
  - split; [exact Hf|exact Hb].
Defined.

Lemma attention_width_is_embedding_dim_witness :
  ∃ c s' num_heads head_dim,
    qwen.get_0_5b_model_config (λ _, ∅) (VInt 256) (State ∅ []) = Ok (VRef c) s' ∧
    read (heap s') (VRef c) ["block_configs"; "attn_config"; "num_heads"]
      = Some (VInt num_heads) ∧
    read (heap s') (VRef c) ["block_configs"; "attn_config"; "head_dim"]
      = Some (VInt head_dim) ∧
    read (heap s') (VRef c) ["embedding_dim"] = Some (VInt (num_heads * head_dim)).
Proof.
  destruct (attention_width_is_embedding_dim (λ _, ∅) 256 ∅
              (qwen.get_0_5b_model_config (λ _, ∅) (VInt 256)) (State ∅ []))
    as (c & s' & nh & hd & g & ed & Hrun & Hnh & Hhd & _ & Hed & Heq & _).
  - rewrite dom_empty_L. apply empty_subseteq.
  - apply list_elem_of_further, list_elem_of_further, list_elem_of_here.
  - exists c, s', nh, hd. rewrite Heq. split; [exact Hrun|].
    split; [exact Hnh|]. split; [exact Hhd|exact Hed].
Defined.

End config_extra_instances.

(** * Further facts about the Qwen class and the model builders *)

Section model_extra.
Import Store.





Lemma read_step h v a path :
  read h v (a :: path)
  = match read h v [a] with Some x => read h x path | None => None end.
Proof.
  cbn. destruct v; try done. by destruct (attr h l a).
Qed.

Lemma run_getattr_read {B} v a (f : val → M B) h cs :
  (getattr v a ≫= f) (State h cs)
  = match read h v [a] with
    | Some x => f x (State h cs)
    | None => Err AttributeError (State h cs)
    end.
Proof.
  unfold mbind, M_bind, getattr, read, attr. cbn [heap].
  destruct v; try done.
  destruct (h !! l) as [o|]; [|done]. cbn.
  by destruct (attrs o !! a).
Qed.

(** X5: Qwen.__init__ re-points nothing when it fails before the
    assignment.  If TinyLlama.__init__ raises, Qwen.__init__ raises the same
    exception; if that constructor returns and the model has no
    tok_embedding.weight.data, or has one and no lm_head.weight,
    Qwen.__init__ raises AttributeError.  In each case the heap is exactly
    the one the constructor left and the constructor is the only call
    made. *)
Theorem Qwen_init_raises_without_partial_update
    (ext : handler) (self config : val) (s : state)
    (r : exn + val) (h1 : gmap loc obj) :
  let c := Call "tiny_llama.TinyLlama.__init__" [self; config] [] in
  let after := State h1 (calls s ++ [c]) in
  ext c (heap s) = (r, h1) →
  (∀ e, r = inl e → qwen.Qwen__init__ ext self config s = Err e after) ∧
  (∀ v, r = inr v →
        read h1 self ["tok_embedding"; "weight"; "data"] = None →
        qwen.Qwen__init__ ext self config s = Err AttributeError after) ∧
  (∀ v d, r = inr v →
          read h1 self ["tok_embedding"; "weight"; "data"] = Some d →
          read h1 self ["lm_head"; "weight"] = None →
          qwen.Qwen__init__ ext self config s = Err AttributeError after).
Proof.
  intros c after Hext. unfold qwen.Qwen__init__.
  split; [|split].
  - intros e ->. apply bind_Err. unfold extcall. fold c. by rewrite Hext.
  - intros v -> Hnone.
    erewrite bind_Ok; [|by apply extcall_Ok]. fold c after. unfold after.
    rewrite run_getattr_read. rewrite read_step in Hnone.
    destruct (read h1 self ["tok_embedding"]) as [x1|]; [|done].
    rewrite run_getattr_read. rewrite read_step in Hnone.
    destruct (read h1 x1 ["weight"]) as [x2|]; [|done].
    rewrite run_getattr_read.
    destruct (read h1 x2 ["data"]) as [x3|]; [discriminate Hnone|done].
  - intros v d -> Hd Hnone.
    erewrite bind_Ok; [|by apply extcall_Ok]. fold c after. unfold after.
    rewrite run_getattr_read. rewrite read_step in Hd.
    destruct (read h1 self ["tok_embedding"]) as [x1|]; [|discriminate Hd].
    rewrite run_getattr_read. rewrite read_step in Hd.
    destruct (read h1 x1 ["weight"]) as [x2|]; [|discriminate Hd].
    rewrite run_getattr_read.
    destruct (read h1 x2 ["data"]) as [x3|]; [|discriminate Hd].
    rewrite run_getattr_read. rewrite read_step in Hnone.
    destruct (read h1 self ["lm_head"]) as [x4|]; [|done].
    rewrite run_getattr_read.
    destruct (read h1 x4 ["weight"]) as [x5|]; [discriminate Hnone|done].
Qed.


(** X7: the copy of the tensor-name table is shallow.  An attribute of
    tiny_llama's table, other than lm_head, that holds a reference to an
    object holds the same reference in qwen's copy: an attribute set on that
    object after the import is seen through both tables. *)
Theorem import_qwen_copy_is_shallow
    (t r : loc) (o o_r : obj) (a : string) (s : state) :
  heap s !! t = Some o →
  attrs o !! a = Some (VRef r) →
  a ≠ "lm_head" →
  heap s !! r = Some o_r →
  r ≠ t →
  ∃ q s',
    qwen.import_qwen (VRef t) s = Ok (VRef q) s' ∧
    q ≠ t ∧
    attr (heap s') q a = Some (VRef r) ∧
    attr (heap s') t a = Some (VRef r) ∧
    ∀ b x, ∃ s'',
      setattr (VRef r) b x s' = Ok tt s'' ∧
      read (heap s'') (VRef q) [a; b] = Some x ∧
      read (heap s'') (VRef t) [a; b] = Some x.
Proof.
  intros Ho Ha Hne Hr Hrt. destruct s as [h cs]. cbn [heap] in *.
  pose proof (fresh_None h) as Hq. set (q := fresh (dom h)) in *.
  assert (Hqt : q ≠ t) by congruence.
  assert (Hqr : q ≠ r) by congruence.
  exists q. eexists. split.
  { unfold qwen.import_qwen.
    erewrite bind_Ok; [|unfold copy_copy; cbn [heap]; rewrite Ho; reflexivity].
    fold q. erewrite bind_Ok; [reflexivity|].
    apply setattr_Ok. apply lookup_insert_eq. }
  cbn [heap calls cls attrs]. split; [done|].
  assert (Hqa : ∀ h', attr (<[q:=Obj (cls o) (<["lm_head":=VNone]> (attrs o))]> h') q a
                      = Some (VRef r)).
  { intros h'. unfold attr. rewrite lookup_insert_eq. cbn.
    by rewrite lookup_insert_ne. }
  split; [apply Hqa|].
  assert (Hta : attr (<[q:=Obj (cls o) (<["lm_head":=VNone]> (attrs o))]>
                        (<[q:=Obj (cls o) (attrs o)]> h)) t a = Some (VRef r)).
  { unfold attr. rewrite !lookup_insert_ne by done. by rewrite Ho. }
  split; [exact Hta|].
  intros b x. eexists. split.
  { apply setattr_Ok. rewrite !lookup_insert_ne by done. exact Hr. }
  cbn [heap].
  assert (Hrb : ∀ h', attr (<[r:=Obj (cls o_r) (<[b:=x]> (attrs o_r))]> h') r b
                      = Some x).
  { intros h'. unfold attr. rewrite lookup_insert_eq. cbn.
    by rewrite lookup_insert_eq. }
  split.
  - erewrite read_cons; [|rewrite attr_insert_ne by done; apply Hqa].
    erewrite read_cons; [reflexivity|apply Hrb].
  - erewrite read_cons; [|rewrite attr_insert_ne by done; exact Hta].
    erewrite read_cons; [reflexivity|apply Hrb].
Qed.

(** X8: re-pointing is a no-op on a model whose head already has the
    embedding's tensor as data (as when lm_head.weight is the parameter of
    the embedding): Qwen.__init__ returns and leaves the heap exactly as
    TinyLlama.__init__ left it. *)
Theorem Qwen_init_on_tied_weights
    (ext : handler) (self : loc) (config v d : val) (s : state)
    (h1 : gmap loc obj) (e w lh w' : loc) :
  ext (Call "tiny_llama.TinyLlama.__init__" [VRef self; config] []) (heap s)
    = (inr v, h1) →
  attr h1 self "tok_embedding" = Some (VRef e) →
  attr h1 e "weight" = Some (VRef w) →
  attr h1 w "data" = Some d →
  attr h1 self "lm_head" = Some (VRef lh) →
  attr h1 lh "weight" = Some (VRef w') →
  attr h1 w' "data" = Some d →
  qwen.Qwen__init__ ext (VRef self) config s
  = Ok tt (State h1 (calls s ++
             [Call "tiny_llama.TinyLlama.__init__" [VRef self; config] []])).
Proof.
  intros Hext He Hw Hd Hlh Hw' Hd'.
  unfold qwen.Qwen__init__.
  erewrite bind_Ok; [|by apply extcall_Ok].
  rewrite (run_getattr _ _ _ _ _ _ He), (run_getattr _ _ _ _ _ _ Hw),
    (run_getattr _ _ _ _ _ _ Hd), (run_getattr _ _ _ _ _ _ Hlh),
    (run_getattr _ _ _ _ _ _ Hw').
  unfold attr in Hd'. destruct (h1 !! w') as [o|] eqn:Ho; [|discriminate].
  cbn in Hd'. rewrite (setattr_Ok _ _ _ _ _ _ Ho).
  do 2 f_equal. destruct o as [c m]. cbn in *.
  rewrite (insert_id m) by done. by apply insert_id.
Qed.

End model_extra.

Section model_extra_instances.
Import Store.

Lemma Qwen_init_raises_without_partial_update_witness :
  (* the constructor raises: there is no object at location 7 *)
  qwen.Qwen__init__ qwen.example_ext (VRef 7%nat) VNone qwen.example_state
  = Err AttributeError
      (State (heap qwen.example_state)
         [Call "tiny_llama.TinyLlama.__init__" [VRef 7%nat; VNone] []]) ∧
  (* the constructor returns and leaves a model without attributes *)
  qwen.Qwen__init__ (λ _ h, (inr VNone, h)) (VRef 2%nat) VNone qwen.example_state
  = Err AttributeError
      (State (heap qwen.example_state)
         [Call "tiny_llama.TinyLlama.__init__" [VRef 2%nat; VNone] []]) ∧
  (* the constructor returns and leaves a model without a head projection *)
  qwen.Qwen__init__ (λ _ h, (inr VNone, h)) (VRef 0%nat) VNone
    (State {[ 0%nat := Obj "Qwen" {[ "tok_embedding" := VRef 1%nat ]};
              1%nat := Obj "Embedding" {[ "weight" := VRef 3%nat ]};
              3%nat := Obj "Parameter" {[ "data" := VRef 4%nat ]};
              4%nat := Obj "Tensor" ∅ ]} [])
  = Err AttributeError
      (State {[ 0%nat := Obj "Qwen" {[ "tok_embedding" := VRef 1%nat ]};
                1%nat := Obj "Embedding" {[ "weight" := VRef 3%nat ]};
                3%nat := Obj "Parameter" {[ "data" := VRef 4%nat ]};
                4%nat := Obj "Tensor" ∅ ]}
         [Call "tiny_llama.TinyLlama.__init__" [VRef 0%nat; VNone] []]).
Proof.
  split; [|split].
  - destruct (Qwen_init_raises_without_partial_update qwen.example_ext
                (VRef 7%nat) VNone qwen.example_state (inl AttributeError)
                (heap qwen.example_state)) as (H & _ & _); [reflexivity|].
    exact (H AttributeError eq_refl).
  - destruct (Qwen_init_raises_without_partial_update (λ _ h, (inr VNone, h))
                (VRef 2%nat) VNone qwen.example_state (inr VNone)
                (heap qwen.example_state)) as (_ & H & _); [reflexivity|].
    exact (H VNone eq_refl eq_refl).
  - lazymatch goal with
    | |- _ _ _ _ (State ?h0 []) = _ =>
        destruct (Qwen_init_raises_without_partial_update (λ _ h, (inr VNone, h))
                    (VRef 0%nat) VNone (State h0 []) (inr VNone) h0)
          as (_ & _ & H); [reflexivity|];
        exact (H VNone (VRef 4%nat) eq_refl eq_refl eq_refl)
    end.
Defined.

Lemma import_qwen_copy_is_shallow_witness :
  ∃ q s',
    qwen.import_qwen (VRef 0%nat)
      (State {[ 0%nat := Obj "TensorNames" {[ "extra" := VRef 5%nat ]};
                5%nat := Obj "Names" ∅ ]} []) = Ok (VRef q) s' ∧
    attr (heap s') q "extra" = Some (VRef 5%nat) ∧
    attr (heap s') 0%nat "extra" = Some (VRef 5%nat).
Proof.
  destruct (import_qwen_copy_is_shallow 0%nat 5%nat
              (Obj "TensorNames" {[ "extra" := VRef 5%nat ]}) (Obj "Names" ∅)
              "extra"
              (State {[ 0%nat := Obj "TensorNames" {[ "extra" := VRef 5%nat ]};
                        5%nat := Obj "Names" ∅ ]} []))
    as (q & s' & Hrun & _ & Hq & Ht & _);
    [reflexivity|reflexivity|discriminate|reflexivity|discriminate|].
  exists q, s'. split; [exact Hrun|]. split; [exact Hq|exact Ht].
Defined.

Lemma Qwen_init_on_tied_weights_witness :
  qwen.Qwen__init__ (λ _ h, (inr VNone, h)) (VRef 0%nat) VNone
    (State {[ 0%nat := Obj "Qwen" {[ "tok_embedding" := VRef 1%nat;
                                     "lm_head" := VRef 2%nat ]};
              1%nat := Obj "Embedding" {[ "weight" := VRef 3%nat ]};
              2%nat := Obj "Linear" {[ "weight" := VRef 3%nat ]};
              3%nat := Obj "Parameter" {[ "data" := VRef 4%nat ]};
              4%nat := Obj "Tensor" ∅ ]} [])
  = Ok tt
      (State {[ 0%nat := Obj "Qwen" {[ "tok_embedding" := VRef 1%nat;
                                       "lm_head" := VRef 2%nat ]};
                1%nat := Obj "Embedding" {[ "weight" := VRef 3%nat ]};
                2%nat := Obj "Linear" {[ "weight" := VRef 3%nat ]};
                3%nat := Obj "Parameter" {[ "data" := VRef 4%nat ]};
                4%nat := Obj "Tensor" ∅ ]}
         [Call "tiny_llama.TinyLlama.__init__" [VRef 0%nat; VNone] []]).
Proof.
  lazymatch goal with
  | |- _ _ _ _ (State ?h0 []) = _ =>
      exact (Qwen_init_on_tied_weights (λ _ h, (inr VNone, h)) 0%nat VNone VNone
               (VRef 4%nat) (State h0 []) h0 1%nat 3%nat 2%nat 3%nat
               eq_refl eq_refl eq_refl eq_refl eq_refl eq_refl eq_refl)
  end.
Defined.

End model_extra_instances.

(** * Further facts about the conversion tests *)

Section test_extra.
Import test_model_conversion_large.
Context {Config Model KVCache EdgeModel Converter TFLiteModel : Type}.

Abbreviation env_type :=
  (∀ X, ext Config Model KVCache EdgeModel Converter TFLiteModel X → option X).
Abbreviation reached r := (verdict_of r.2 ∈ [Passed; Failed]).
Abbreviation sample_tokens :=
  {| shape := [1; 10]%nat; elem_type := int64; device := "cpu";
     data := [1; 2; 3; 4; 0; 0; 0; 0; 0; 0] |}.
Abbreviation sample_input_pos :=
  {| shape := [10]%nat; elem_type := int64; device := "cpu";
     data := [0; 1; 2; 3; 4; 5; 6; 7; 8; 9] |}.
Abbreviation reason := "tests with custom ops are not supported on oss".
Abbreviation not_skipped p :=
  (∀ env : env_type, verdict_of (run env p).2 ≠ Skipped).





Abbreviation custom_ops_builder tflite :=
  {| custom_op_registerers := ["GenAIOpsRegisterer"];
     model_content := tflite;
     experimental_default_delegate_latest_features := true |}.

(** X10: the interpreter of the comparison.  In each test that runs to its
    verdict, the three last calls are: tflite_model on the converted edge
    model, set_interpreter_builder on that edge model with a builder for
    InterpreterWithCustomOps that registers GenAIOpsRegisterer, is given that
    very tflite model as content and enables the latest delegate features,
    and then the comparison on that edge model. *)
Theorem tests_set_custom_ops_interpreter (xla : bool) (env : env_type) :
  (reached (run env (test_gemma xla)) →
   ∃ model kwargs edge tflite pre tokens input_pos kv signature_name atol rtol,
     env _ (ai_edge_torch_convert model kwargs) = Some edge ∧
     env _ (tflite_model edge) = Some tflite ∧
     (run env (test_gemma xla)).1
     = pre ++ [ Event (tflite_model edge);
                Event (set_interpreter_builder edge (custom_ops_builder tflite));
                Event (compare_tflite_torch edge model tokens input_pos kv
                         signature_name atol rtol) ]) ∧
  (reached (run env (test_gemma2 xla)) →
   ∃ model converter edge tflite pre tokens input_pos kv signature_name atol rtol,
     env _ (Converter_convert converter) = Some edge ∧
     env _ (tflite_model edge) = Some tflite ∧
     (run env (test_gemma2 xla)).1
     = pre ++ [ Event (tflite_model edge);
                Event (set_interpreter_builder edge (custom_ops_builder tflite));
                Event (compare_tflite_torch edge model tokens input_pos kv
                         signature_name atol rtol) ]) ∧
  (reached (run env (test_phi2 xla)) →
   ∃ model kwargs edge tflite pre tokens input_pos kv signature_name atol rtol,
     env _ (ai_edge_torch_convert model kwargs) = Some edge ∧
     env _ (tflite_model edge) = Some tflite ∧
     (run env (test_phi2 xla)).1
     = pre ++ [ Event (tflite_model edge);
                Event (set_interpreter_builder edge (custom_ops_builder tflite));
                Event (compare_tflite_torch edge model tokens input_pos kv
                         signature_name atol rtol) ]).
Proof.
  split; [|split].
  - intros H.
    destruct (test_gemma_run xla env H)
      as (config & model & kv & edge & tflite & same & _ & _ & _ & _ & Hc & Ht
          & _ & ->).
    eexists model, _, edge, tflite,
      [Event (get_fake_model_config gemma); Event (new_model gemma config);
       Event (KVCache_from_model_config config); _], _, _, _, _, _, _.
    split; [exact Hc|]. split; [exact Ht|]. reflexivity.
  - intros H.
    destruct (test_gemma2_run xla env H)
      as (config & model & ev & kv & converter & edge & tflite & same & _ & _
          & _ & _ & _ & _ & Hc & Ht & _ & ->).
    eexists model, converter, edge, tflite,
      [Event (get_fake_model_config gemma2); Event (new_model gemma2 config);
       Event (Module_eval model); Event (KVCache_from_model_config config);
       _; _], _, _, _, _, _, _.
    split; [exact Hc|]. split; [exact Ht|]. reflexivity.
  - intros H.
    destruct (test_phi2_run xla env H)
      as (config & model & pm & kv & edge & tflite & same & _ & _ & _ & _ & _
          & Hc & Ht & _ & ->).
    eexists pm, _, edge, tflite,
      [Event (get_fake_model_config phi2); Event (new_model phi2 config);
       Event (Module_eval model); Event (KVCache_from_model_config config);
       _], _, _, _, _, _, _.
    split; [exact Hc|]. split; [exact Ht|]. reflexivity.
Qed.

Ltac in_trace :=
  repeat first [ apply list_elem_of_here | apply list_elem_of_further ].

Ltac each_event H :=
  repeat (apply elem_of_cons in H as [->|H]);
  [ .. | by apply elem_of_nil in H ].

Ltac no_eval :=
  let H := fresh in
  intros ? H; each_event H; reflexivity.

Ltac eval_of_model :=
  let H := fresh in
  let Hm := fresh in
  intros ? ? H Hm; each_event H; cbn in Hm; congruence.

(** X11: eval mode in the tests.  test_gemma converts its model without
    ever calling eval.  test_gemma2 calls eval on its model before it
    converts, drops what eval returns, and converts and compares the model
    itself.  test_phi2 calls eval on its model before it converts, and
    converts and compares what eval returned.  No test calls eval on
    anything but the model it constructed. *)
Theorem tests_eval_before_conversion (xla : bool) (env : env_type) :
  (reached (run env (test_gemma xla)) →
   ∀ e, e ∈ (run env (test_gemma xla)).1 → eval_target e = None) ∧
  (reached (run env (test_gemma2 xla)) →
   ∃ config model evaluated kwargs edge tokens input_pos kv atol rtol pre mid post,
     env _ (new_model gemma2 config) = Some model ∧
     env _ (Module_eval model) = Some evaluated ∧
     (run env (test_gemma2 xla)).1
     = pre ++ Event (Module_eval model) :: mid
       ++ Event (ai_edge_torch_signature "prefill" model kwargs) :: post ∧
     Event (compare_tflite_torch edge model tokens input_pos kv "prefill"
              atol rtol) ∈ (run env (test_gemma2 xla)).1 ∧
     (∀ e m, e ∈ (run env (test_gemma2 xla)).1 →
             eval_target e = Some m → m = model)) ∧
  (reached (run env (test_phi2 xla)) →
   ∃ config model pytorch_model kwargs edge tokens input_pos kv atol rtol
     pre mid post,
     env _ (new_model phi2 config) = Some model ∧
     env _ (Module_eval model) = Some pytorch_model ∧
     (run env (test_phi2 xla)).1
     = pre ++ Event (Module_eval model) :: mid
       ++ Event (ai_edge_torch_convert pytorch_model kwargs) :: post ∧
     Event (compare_tflite_torch edge pytorch_model tokens input_pos kv
              "serving_default" atol rtol) ∈ (run env (test_phi2 xla)).1 ∧
     (∀ e m, e ∈ (run env (test_phi2 xla)).1 →
             eval_target e = Some m → m = model)).
Proof.
  split; [|split].
  - intros H.
    destruct (test_gemma_run xla env H)
      as (config & model & kv & edge & tflite & same & _ & _ & _ & _ & _ & _
          & _ & ->).
    cbn [fst]. no_eval.
  - intros H.
    destruct (test_gemma2_run xla env H)
      as (config & model & ev & kv & converter & edge & tflite & same & _ & _
          & Hm & He & _ & _ & _ & _ & _ & ->).
    eexists config, model, ev, _, edge, _, _, kv, _, _,
      [Event (get_fake_model_config gemma2); Event (new_model gemma2 config)],
      [Event (KVCache_from_model_config config)], _.
    cbn [fst]. split; [exact Hm|]. split; [exact He|].
    split; [reflexivity|]. split; [in_trace|]. eval_of_model.
  - intros H.
    destruct (test_phi2_run xla env H)
      as (config & model & pm & kv & edge & tflite & same & _ & _ & Hm & He & _
          & _ & _ & _ & ->).
    eexists config, model, pm, _, edge, _, _, kv, _, _,
      [Event (get_fake_model_config phi2); Event (new_model phi2 config)],
      [Event (KVCache_from_model_config config)], _.
    cbn [fst]. split; [exact Hm|]. split; [exact He|].
    split; [reflexivity|]. split; [in_trace|]. eval_of_model.
Qed.

End test_extra.

Section test_extra_instances.
Import test_model_conversion_large.

Abbreviation reached r := (verdict_of r.2 ∈ [Passed; Failed]).


Lemma tests_set_custom_ops_interpreter_witness :
  reached (run (example_env true) (test_gemma2 false)) ∧
  ∃ edge tflite pre cmp,
    (run (example_env true) (test_gemma2 false)).1
    = pre ++ [ Event (tflite_model edge);
               Event (set_interpreter_builder edge
                        {| custom_op_registerers := ["GenAIOpsRegisterer"];
                           model_content := tflite;
                           experimental_default_delegate_latest_features := true |});
               cmp ].
Proof.
  assert (Hg2 : reached (run (example_env true) (test_gemma2 false)))
    by (vm_compute; apply list_elem_of_here).
  split; [exact Hg2|].
  destruct (tests_set_custom_ops_interpreter false (example_env true))
    as (_ & T & _).
  destruct (T Hg2)
    as (model & cv & edge & tflite & pre & tokens & pos & kv & sg & atol & rtol
        & _ & _ & Htrace).
  eexists edge, tflite, pre, _. exact Htrace.
Defined.

Lemma tests_eval_before_conversion_witness :
  reached (run (example_env true) (test_phi2 false)) ∧
  ∃ model pytorch_model kwargs pre mid post,
    (run (example_env true) (test_phi2 false)).1
    = pre ++ Event (Module_eval model) :: mid
      ++ Event (ai_edge_torch_convert pytorch_model kwargs) :: post.
Proof.
  assert (Hp : reached (run (example_env true) (test_phi2 false)))
    by (vm_compute; apply list_elem_of_here).
  split; [exact Hp|].
  destruct (tests_eval_before_conversion false (example_env true))
    as (_ & _ & T).
  destruct (T Hp)
    as (config & model & pm & kwargs & edge & tokens & pos & kv & atol & rtol
        & pre & mid & post & _ & _ & Htrace & _).
  exists model, pm, kwargs, pre, mid, post. exact Htrace.
Defined.

End test_extra_instances.
